(** * Order placement of the e-commerce backend

    A shallow embedding of the [POST /orders] route of the Express server
    (and of [PUT /products/:id], the route that edits a catalog price),
    together with the store the routes talk to through [pool.query].

    The server is asynchronous JavaScript: a handler runs until its next
    [await pool.query(...)], the statement is executed by the database, and
    the handler resumes with the rows.  A handler is therefore embedded as a
    tree of statements ([prog]); one interpreter runs a handler alone, with
    statements that may throw ([run]), another interleaves the statements of
    two handlers on the same store ([interleave]).

    Keys are integers, generated keys count up from 1; a quantity in a
    request is an integer or absent; prices are [decimal(10,2)] values kept
    in hundredths, and become JavaScript numbers where the handler
    multiplies them.  Columns no statement of the two routes reads or
    compares ([created_at]) are left out. *)

From Stdlib Require Import ZArith List Floats Lia.
From stdpp Require Import gmap list strings.

Open Scope Z_scope.

(** ** JavaScript numbers

    A JavaScript [Number] is an IEEE-754 binary64 value: Rocq's primitive
    [float], with the same round-to-nearest-even [+], [*] and [/]. *)

Module JS.

Definition number := float.

(** The [Number] of an integer: the nearest binary64 value, ties to even,
    an infinity when the integer is too large. *)
Definition of_Z (z : Z) : number :=
  SF2Prim (binary_normalize prec emax z 0 false).

(** [ToNumber] of the text of a [decimal(10,2)] column, which node-postgres
    hands over as a string such as ["0.10"]: the double nearest to
    [cents / 100] (the division rounds once, [cents] being below [2^53] for
    such a column). *)
Definition of_cents (cents : Z) : number :=
  PrimFloat.div (of_Z cents) (of_Z 100).

Definition add (a b : number) : number := PrimFloat.add a b.
Definition mul (a b : number) : number := PrimFloat.mul a b.

(** What a [decimal(10,2)] column keeps of a number, in hundredths.
    node-postgres sends a number as the text [String(x)], the shortest
    decimal that reads back as [x], and the column rounds that decimal to
    two places, a half going away from zero.  With [k] the hundredths in
    [|x|] cut off, the only rounding boundary near [x] is [(2k+1)/200]; the
    shortest decimal lies on the side of it where [x] lies, unless the
    boundary itself reads back as [x], and then it is that shortest
    decimal.  ([None] for [NaN] and the infinities; beyond the column's
    range, where the INSERT is refused, the value is of no consequence.) *)
Definition to_cents (x : number) : option Z :=
  match Prim2SF x with
  | S754_zero _ => Some 0
  | S754_finite s m e =>
      let num := 100 * Zpos m in
      let k := if 0 <=? e then num * 2 ^ e else num / 2 ^ (- e) in
      let below_half :=
        if 0 <=? e then true
        else 2 * (num mod 2 ^ (- e)) <? 2 ^ (- e) in
      let boundary := PrimFloat.div (of_Z (2 * k + 1)) (of_Z 200) in
      let n :=
        if PrimFloat.eqb boundary (PrimFloat.abs x) then k + 1
        else if below_half then k else k + 1 in
      Some (if s then - n else n)
  | _ => None
  end.

(** The number read back from a [decimal(10,2)] column that was given
    [x]. *)
Definition stored (x : number) : number :=
  match to_cents x with
  | Some cents => of_cents cents
  | None => x
  end.

(** [!v] for a field that is absent ([None]) or holds an integer:
    [undefined], [null] and [0] are falsy. *)
Definition falsy (v : option Z) : bool :=
  match v with
  | None => true
  | Some z => z =? 0
  end.

End JS.

(** ** Rows of the three tables *)

(** [products]: the [price] column is [decimal(10,2)], kept in hundredths. *)
Record product := {
  p_id : Z;
  p_seller_id : Z;
  p_name : string;
  p_description : string;
  p_price : Z;
  p_stock : Z;
  p_imageurl : option string
}.

(** [orders]: [total] is [decimal(10,2)]; it holds the number the handler
    passes to the INSERT as the column keeps it, rounded to hundredths. *)
Record order := {
  o_id : Z;
  o_buyer_id : Z;
  o_total : JS.number;
  o_status : string
}.

(** [order_items]: [price] is the price at the time of purchase. *)
Record order_item := {
  oi_id : Z;
  oi_order_id : Z;
  oi_product_id : Z;
  oi_quantity : Z;
  oi_price : Z
}.

Record store := {
  products : gmap Z product;
  orders : list order;
  order_items : list order_item
}.

(** The values the [Order] entity documents for [status]. *)
Definition order_statuses : list string :=
  ["pending"; "paid"; "shipped"; "delivered"; "cancelled"]%string.

(** ** Requests and responses *)

(** One element of [req.body.products]: [{ product_id, quantity }], either
    field possibly absent. *)
Record item := {
  product_id : option Z;
  quantity : option Z
}.

(** An entry of the handler's [productDetails] array. *)
Record detail := {
  d_product_id : Z;
  d_quantity : Z;
  d_price : Z
}.

(** The [error] texts of the two routes. *)
Inductive message :=
| MsgProductsRequired      (* Produtos são obrigatórios e devem ser um array *)
| MsgItemFields            (* Cada produto deve ter ID e quantidade *)
| MsgUnavailable (id : Z)  (* Produto ${product_id} não disponível ou estoque insuficiente *)
| MsgCreateOrder           (* Erro ao criar pedido *)
| MsgNoPermission          (* Produto não encontrado ou você não tem permissão *)
| MsgEditProduct.          (* Erro ao editar produto *)

Inductive body :=
| ErrorBody (error : message)
| OrderBody (row : order)
| ProductBody (row : option product).

Record response := {
  status : Z;
  json : body
}.

Definition Created (o : order) : response :=
  {| status := 201; json := OrderBody o |}.

Definition BadRequest (m : message) : response :=
  {| status := 400; json := ErrorBody m |}.

Definition ServerError (m : message) : response :=
  {| status := 500; json := ErrorBody m |}.

(** ** Statements sent through [pool.query] *)

Inductive query : Type -> Type :=
| SelectProduct (id : Z) : query (option product)
    (* SELECT * FROM products WHERE id = $1, then rows[0] *)
| InsertOrder (buyer_id : Z) (total : JS.number) (st : string) : query order
    (* INSERT INTO orders (buyer_id, total, status) ... RETURNING *, rows[0] *)
| InsertOrderItem (order_id pid qty price : Z) : query unit
    (* INSERT INTO order_items (order_id, product_id, quantity, price) *)
| UpdateStock (qty pid : Z) : query unit
    (* UPDATE products SET stock = stock - $1 WHERE id = $2 *)
| SelectProductOfSeller (id seller_id : Z) : query (option product)
    (* SELECT * FROM products WHERE id = $1 AND seller_id = $2, rows[0] *)
| UpdateProduct (name description : string) (price stock : Z)
    (imageurl : option string) (id : Z) : query (option product).
    (* UPDATE products SET name, description, price, stock, imageurl
       WHERE id = $6 RETURNING *, rows[0] *)

Definition set_stock (p : product) (s : Z) : product :=
  {| p_id := p_id p; p_seller_id := p_seller_id p; p_name := p_name p;
     p_description := p_description p; p_price := p_price p;
     p_stock := s; p_imageurl := p_imageurl p |}.

Definition edit_product (name description : string) (price stock : Z)
    (imageurl : option string) (p : product) : product :=
  {| p_id := p_id p; p_seller_id := p_seller_id p; p_name := name;
     p_description := description; p_price := price;
     p_stock := stock; p_imageurl := imageurl |}.

Definition with_products (db : store) (ps : gmap Z product) : store :=
  {| products := ps; orders := orders db; order_items := order_items db |}.

(** Generated keys: the next value of a serial column. *)
Definition next_id {A} (rows : list A) : Z := Z.of_nat (length rows) + 1.

Definition new_order (db : store) (buyer_id : Z) (total : JS.number)
    (st : string) : order :=
  {| o_id := next_id (orders db); o_buyer_id := buyer_id;
     o_total := JS.stored total; o_status := st |}.

Definition new_order_item (db : store) (order_id pid qty price : Z) : order_item :=
  {| oi_id := next_id (order_items db); oi_order_id := order_id;
     oi_product_id := pid; oi_quantity := qty; oi_price := price |}.

(** What one statement returns and does to the store when it succeeds. *)
Definition exec {R} (q : query R) (db : store) : R * store :=
  match q in query R return R * store with
  | SelectProduct id => (products db !! id, db)
  | InsertOrder buyer_id total st =>
      let o := new_order db buyer_id total st in
      (o, {| products := products db; orders := orders db ++ [o];
             order_items := order_items db |})
  | InsertOrderItem order_id pid qty price =>
      let r := new_order_item db order_id pid qty price in
      (tt, {| products := products db; orders := orders db;
              order_items := order_items db ++ [r] |})
  | UpdateStock qty pid =>
      (tt, with_products db
             (alter (fun p => set_stock p (p_stock p - qty)) pid (products db)))
  | SelectProductOfSeller id seller_id =>
      (match products db !! id with
       | Some p => if p_seller_id p =? seller_id then Some p else None
       | None => None
       end, db)
  | UpdateProduct name description price stock imageurl id =>
      let ps := alter (edit_product name description price stock imageurl) id
                  (products db) in
      (ps !! id, with_products db ps)
  end.

(** ** Handlers *)

(** The body of an [async] handler: it answers, or awaits a statement and
    goes on with what the statement returned. *)
Inductive prog :=
| Ret (r : response)
| Await {R} (q : query R) (k : R -> prog).

(** A route: the [try] block and the response of its [catch]. *)
Record handler := {
  try_block : prog;
  catch_block : response
}.

(** *** [app.post('/orders')] *)

(** The first loop: check each product and accumulate [total]. *)
Fixpoint validate (items : list item) (total : JS.number)
    (productDetails : list detail)
    (k : JS.number -> list detail -> prog) : prog :=
  match items with
  | [] => k total productDetails
  | it :: rest =>
      if JS.falsy (product_id it) || JS.falsy (quantity it) then
        Ret (BadRequest MsgItemFields)
      else
        match product_id it, quantity it with
        | Some pid, Some qty =>
            Await (SelectProduct pid) (fun product =>
              match product with
              | None => Ret (BadRequest (MsgUnavailable pid))
              | Some p =>
                  if p_stock p <? qty then
                    Ret (BadRequest (MsgUnavailable pid))
                  else
                    validate rest
                      (JS.add total (JS.mul (JS.of_cents (p_price p)) (JS.of_Z qty)))
                      (productDetails ++
                         [{| d_product_id := pid; d_quantity := qty;
                             d_price := p_price p |}])
                      k
              end)
        | _, _ => Ret (BadRequest MsgItemFields)
        end
  end.

(** The second loop: one [order_items] row per entry. *)
Fixpoint insertItems (order_id : Z) (productDetails : list detail)
    (k : prog) : prog :=
  match productDetails with
  | [] => k
  | d :: rest =>
      Await (InsertOrderItem order_id (d_product_id d) (d_quantity d) (d_price d))
        (fun _ => insertItems order_id rest k)
  end.

(** The third loop: one stock update per entry. *)
Fixpoint updateStock (productDetails : list detail) (k : prog) : prog :=
  match productDetails with
  | [] => k
  | d :: rest =>
      Await (UpdateStock (d_quantity d) (d_product_id d))
        (fun _ => updateStock rest k)
  end.

(** What follows the first loop. *)
Definition persist (user_id : Z) (total : JS.number)
    (productDetails : list detail) : prog :=
  Await (InsertOrder user_id total "pendente") (fun order =>
    insertItems (o_id order) productDetails
      (updateStock productDetails (Ret (Created order)))).

(** The handler proper, reached once [authenticate] and
    [checkAdminOrRole('comprador')] have let the request through:
    [user_id] is [req.user.id], and [products] is [None] when
    [req.body.products] is missing or is not an array. *)
Definition placeOrder (user_id : Z) (products : option (list item)) : handler :=
  {| try_block :=
       match products with
       | None => Ret (BadRequest MsgProductsRequired)
       | Some items => validate items PrimFloat.zero [] (persist user_id)
       end;
     catch_block := ServerError MsgCreateOrder |}.

(** *** [app.put('/products/:id')] *)

Definition editProduct (user_id id : Z) (name description : string)
    (price stock : Z) (file : option string) : handler :=
  {| try_block :=
       Await (SelectProductOfSeller id user_id) (fun productResult =>
         match productResult with
         | None => Ret {| status := 403; json := ErrorBody MsgNoPermission |}
         | Some p =>
             let imagePath :=
               match file with
               | Some filename => Some ("uploads/" +:+ filename)
               | None => p_imageurl p
               end in
             Await (UpdateProduct name description price stock imagePath id)
               (fun row => Ret {| status := 200; json := ProductBody row |})
         end);
     catch_block := ServerError MsgEditProduct |}.

(** ** Running handlers *)

(** [faults n] tells whether the [n]-th statement issued throws; a statement
    that throws changes nothing, and control passes to the [catch]. *)
Fixpoint run_prog (p : prog) (catch : response) (faults : nat -> bool)
    (n : nat) (db : store) : response * store :=
  match p with
  | Ret r => (r, db)
  | Await q k =>
      if faults n then (catch, db)
      else let '(v, db') := exec q db in run_prog (k v) catch faults (S n) db'
  end.

Definition run (h : handler) (faults : nat -> bool) (db : store)
    : response * store :=
  run_prog (try_block h) (catch_block h) faults 0%nat db.

Definition no_faults : nat -> bool := fun _ => false.

(** Only the [n]-th statement throws. *)
Definition fault_at (n : nat) : nat -> bool := fun m => Nat.eqb m n.

(** Two requests in flight, no statement throwing: [schedule] says whose
    statement the database executes next ([true]: the first handler's);
    when it runs out, the first handler finishes and then the second. *)
Fixpoint interleave (schedule : list bool) (p1 p2 : prog) (db : store)
    : response * response * store :=
  match schedule with
  | [] =>
      let '(r1, db1) := run_prog p1 (ServerError MsgCreateOrder) no_faults 0%nat db in
      let '(r2, db2) := run_prog p2 (ServerError MsgCreateOrder) no_faults 0%nat db1 in
      (r1, r2, db2)
  | true :: rest =>
      match p1 with
      | Ret _ => interleave rest p1 p2 db
      | Await q k => let '(v, db') := exec q db in interleave rest (k v) p2 db'
      end
  | false :: rest =>
      match p2 with
      | Ret _ => interleave rest p1 p2 db
      | Await q k => let '(v, db') := exec q db in interleave rest p1 (k v) db'
      end
  end.

(** ** Vocabulary for the statements below *)

(** The entry the first loop pushes for a line that passes its checks
    against [db]; [None] for a line it rejects. *)
Definition snapshot (db : store) (it : item) : option detail :=
  match product_id it, quantity it with
  | Some pid, Some qty =>
      if (pid =? 0) || (qty =? 0) then None
      else match products db !! pid with
           | Some p =>
               if p_stock p <? qty then None
               else Some {| d_product_id := pid; d_quantity := qty;
                            d_price := p_price p |}
           | None => None
           end
  | _, _ => None
  end.

Fixpoint snapshots (db : store) (items : list item) : option (list detail) :=
  match items with
  | [] => Some []
  | it :: rest =>
      match snapshot db it, snapshots db rest with
      | Some d, Some ds => Some (d :: ds)
      | _, _ => None
      end
  end.

(** [product.price * quantity] of one entry. *)
Definition line_total (d : detail) : JS.number :=
  JS.mul (JS.of_cents (d_price d)) (JS.of_Z (d_quantity d)).

(** [total += ...] over the entries, in order, from [total]. *)
Definition js_sum (ds : list detail) (total : JS.number) : JS.number :=
  fold_left (fun t d => JS.add t (line_total d)) ds total.

(** The sum in hundredths, computed exactly. *)
Definition exact_cents (ds : list detail) : Z :=
  foldr (fun d acc => d_price d * d_quantity d + acc) 0 ds.

(** The quantity the entries request of product [id], all lines together. *)
Definition requested (id : Z) (ds : list detail) : Z :=
  foldr (fun d acc => (if d_product_id d =? id then d_quantity d else 0) + acc) 0 ds.

Definition stock_of (db : store) (id : Z) : option Z :=
  p_stock <$> products db !! id.

Definition price_of (db : store) (id : Z) : option Z :=
  p_price <$> products db !! id.

(** The statements of the second and third loops. *)
Definition insert_of (order_id : Z) (d : detail) : query unit :=
  InsertOrderItem order_id (d_product_id d) (d_quantity d) (d_price d).

Definition update_of (d : detail) : query unit :=
  UpdateStock (d_quantity d) (d_product_id d).

Definition writes (order_id : Z) (ds : list detail) : list (query unit) :=
  map (insert_of order_id) ds ++ map update_of ds.

Definition apply (db : store) (q : query unit) : store := snd (exec q db).

Definition apply_all (qs : list (query unit)) (db : store) : store :=
  fold_left apply qs db.

(** A straight line of statements whose results are ignored. *)
Fixpoint do_all (qs : list (query unit)) (k : prog) : prog :=
  match qs with
  | [] => k
  | q :: rest => Await q (fun _ => do_all rest k)
  end.

(** The rows the second loop adds when [n] rows exist already. *)
Fixpoint line_rows (order_id : Z) (n : nat) (ds : list detail) : list order_item :=
  match ds with
  | [] => []
  | d :: rest =>
      {| oi_id := Z.of_nat n + 1; oi_order_id := order_id;
         oi_product_id := d_product_id d; oi_quantity := d_quantity d;
         oi_price := d_price d |} :: line_rows order_id (S n) rest
  end.

(** The [products] table after the third loop. *)
Definition decrement (ds : list detail) (ps : gmap Z product) : gmap Z product :=
  fold_left
    (fun ps d => alter (fun p => set_stock p (p_stock p - d_quantity d))
                   (d_product_id d) ps)
    ds ps.

(** The store after the INSERT of the order row. *)
Definition with_order (db : store) (o : order) : store :=
  {| products := products db; orders := orders db ++ [o];
     order_items := order_items db |}.

(** The store after a commit in which no statement throws. *)
Definition committed (db : store) (o : order) (ds : list detail) : store :=
  {| products := decrement ds (products db);
     orders := orders db ++ [o];
     order_items := order_items db
                      ++ line_rows (o_id o) (length (order_items db)) ds |}.

(** The order row the route inserts for the entries [ds]. *)
Definition placed (db : store) (user_id : Z) (ds : list detail) : order :=
  new_order db user_id (js_sum ds PrimFloat.zero) "pendente".

(** No statement among the [m] issued from the [n]-th on throws. *)
Definition quiet (faults : nat -> bool) (n m : nat) : Prop :=
  forall j, (j < m)%nat -> faults (n + j)%nat = false.

(** The first statement to throw, counted from the [n]-th, is the [j]-th. *)
Definition first_fault (faults : nat -> bool) (n j : nat) : Prop :=
  quiet faults n j /\ faults (n + j)%nat = true.

(** [total] recomputed from rows of [order_items], in the order given. *)
Definition rows_total (rows : list order_item) : JS.number :=
  fold_left
    (fun t r => JS.add t (JS.mul (JS.of_cents (oi_price r)) (JS.of_Z (oi_quantity r))))
    rows PrimFloat.zero.

(** A line the first loop rejects for a missing field: [!product_id ||
    !quantity]. *)
Definition malformed (it : item) : Prop :=
  JS.falsy (product_id it) = true \/ JS.falsy (quantity it) = true.

(** A line the first loop rejects for its product [pid]: no such row, or
    [product.stock < quantity]. *)
Definition unavailable (db : store) (it : item) (pid : Z) : Prop :=
  exists qty,
    product_id it = Some pid /\ quantity it = Some qty
    /\ pid <> 0 /\ qty <> 0
    /\ match products db !! pid with
       | None => True
       | Some p => p_stock p < qty
       end.

Definition fails_validation (db : store) (it : item) : Prop :=
  malformed it \/ exists pid, unavailable db it pid.

(** Row [r] of [order_items] records line [it] of the request for order
    [order_id], at the price product [it] has in [db]. *)
Definition snapshot_row (db : store) (order_id : Z) (it : item)
    (r : order_item) : Prop :=
  oi_order_id r = order_id
  /\ product_id it = Some (oi_product_id r)
  /\ quantity it = Some (oi_quantity r)
  /\ price_of db (oi_product_id r) = Some (oi_price r).

(** The store in which the INSERT of the order row went through and the
    first [j] statements of the write loops after it. *)
Definition partly_written (db : store) (o : order) (ds : list detail)
    (j : nat) : store :=
  {| products := decrement (take (j - length ds) ds) (products db);
     orders := orders db ++ [o];
     order_items := order_items db
                      ++ line_rows (o_id o) (length (order_items db)) (take j ds) |}.


(** The quantity a request asks of product [id], all its lines together. *)
Definition asked (id : Z) (items : list item) : Z :=
  foldr
    (fun it acc =>
       match product_id it, quantity it with
       | Some pid, Some qty => if pid =? id then qty else 0
       | _, _ => 0
       end + acc)
    0 items.

(** ** Sample data: a shop with one product *)

Module Shop.

(** Product 1, sold by user 9, at [price] hundredths with [stock] units. *)
Definition productA (price stock : Z) : product :=
  {| p_id := 1; p_seller_id := 9; p_name := "A"; p_description := "";
     p_price := price; p_stock := stock; p_imageurl := None |}.

(** A store holding product 1 only, with no order yet. *)
Definition shop (price stock : Z) : store :=
  {| products := {[ 1 := productA price stock ]};
     orders := []; order_items := [] |}.

(** A store with no product at all. *)
Definition empty_shop : store :=
  {| products := ∅; orders := []; order_items := [] |}.

(** The request line [{ product_id: id, quantity: qty }]. *)
Definition line (id qty : Z) : item :=
  {| product_id := Some id; quantity := Some qty |}.

(** The entry of [productDetails] for [qty] units of [id] at [price]. *)
Definition entry (id qty price : Z) : detail :=
  {| d_product_id := id; d_quantity := qty; d_price := price |}.

(** The first order row of a store, for buyer [user_id]. *)
Definition order1 (user_id : Z) (total : JS.number) : order :=
  {| o_id := 1; o_buyer_id := user_id; o_total := total;
     o_status := "pendente" |}.

(** A row of [order_items] of order 1. *)
Definition row (id pid qty price : Z) : order_item :=
  {| oi_id := id; oi_order_id := 1; oi_product_id := pid;
     oi_quantity := qty; oi_price := price |}.

End Shop.

(** ** The rest of the server

    The routes around order placement: the three middlewares, registration
    and login, the seller's and the administrator's product routes, reviews,
    the wishlist, the removal of a user and the paginated product list.
    They talk to more tables than [store] holds, so the store is widened to
    a [site], the statements to [stmt] (those of [query] are among them),
    and handlers become [proc]s.  The tables are the ones the server's
    statements name.  The entities declare their relations with
    [onDelete: 'CASCADE']; whether the tables the server talks to were
    created with those constraints the source does not say.  A DELETE is
    given here the effect of its own WHERE clause, and the theorems on
    deletions state only what holds with or without cascading: rows that
    are removed either way, and rows that no cascade reaches. *)

(** *** Tables *)

(** [users]: [password] holds the bcrypt hash. *)
Record user := {
  u_id : Z;
  u_username : string;
  u_email : string;
  u_password : string;
  u_role : string
}.

Record wish := {
  w_id : Z;
  w_user_id : Z;
  w_product_id : Z
}.

Record review := {
  r_id : Z;
  r_product_id : Z;
  r_user_id : Z;
  r_rating : Z;
  r_comment : option string
}.

Record site := {
  core : store;
  users : list user;
  wishlist : list wish;
  reviews : list review
}.

Definition with_core (s : site) (db : store) : site :=
  {| core := db; users := users s; wishlist := wishlist s;
     reviews := reviews s |}.

Definition with_users (s : site) (us : list user) : site :=
  {| core := core s; users := us; wishlist := wishlist s;
     reviews := reviews s |}.

Definition with_wishlist (s : site) (ws : list wish) : site :=
  {| core := core s; users := users s; wishlist := ws;
     reviews := reviews s |}.

Definition with_reviews (s : site) (rs : list review) : site :=
  {| core := core s; users := users s; wishlist := wishlist s;
     reviews := rs |}.

Definition with_order_items (db : store) (rows : list order_item) : store :=
  {| products := products db; orders := orders db; order_items := rows |}.

(** The rows of [products], in the order a scan returns them. *)
Definition scan (db : store) : list product :=
  (map_to_list (products db)).*2.

(** *** Responses *)

(** The payload of a verified token: [{ id, role }]. *)
Record claims := {
  c_id : Z;
  c_role : string
}.

(** The texts of the [error] and [message] fields. *)
Inductive text :=
| TokenMissing            (* Token não fornecido *)
| TokenFormat             (* Formato de token inválido *)
| TokenInvalid            (* Token inválido ou expirado *)
| RoleRequired (role : string)
    (* Apenas ${role}s ou administradores podem acessar esta rota *)
| AdminRequired           (* Apenas administradores podem acessar esta rota *)
| RegisterFailed          (* Erro ao registrar usuário *)
| UserNotFound            (* Usuário não encontrado *)
| WrongPassword           (* Senha inválida *)
| LoginFailed             (* Erro ao fazer login *)
| ProductNotYours         (* Produto não encontrado ou você não tem permissão *)
| GetProductFailed        (* Erro ao buscar produto *)
| ProductRemoved          (* Produto removido com sucesso *)
| RemoveProductFailed     (* Erro ao remover produto *)
| ListProductsFailed      (* Erro ao listar produtos *)
| ProductNotFound         (* Produto não encontrado *)
| ReviewAdded             (* Avaliação adicionada com sucesso *)
| AddReviewFailed         (* Erro ao adicionar avaliação *)
| ListWishlistFailed      (* Erro ao listar itens da lista de desejos *)
| AlreadyWished           (* Produto já está na lista de desejos *)
| WishAdded               (* Produto adicionado à lista de desejos com sucesso *)
| AddWishFailed           (* Erro ao adicionar à lista de desejos *)
| NotWished               (* Produto não encontrado na lista de desejos *)
| WishRemoved             (* Produto removido da lista de desejos com sucesso *)
| RemoveWishFailed        (* Erro ao remover da lista de desejos *)
| UserRemoved
    (* Usuário removido com sucesso (produtos associados, se houver,
       também foram removidos) *)
| RemoveUserFailed        (* Erro ao remover usuário *)
| ProductRemovedByAdmin   (* Produto removido com sucesso (admin) *)
| AdminRemoveProductFailed. (* Erro ao remover produto (admin) *)

Inductive payload :=
| Error (t : text)                       (* { error: t } *)
| Message (t : text)                     (* { message: t } *)
| Registered (id : Z) (username email role : string)
    (* the row RETURNING id, username, email, role *)
| LoggedIn (token : string) (id : Z) (username role : string)
    (* { token, user: { id, username, role } } *)
| OneProduct (row : product)
| Products (rows : list product)
| Page (rows : list product) (totalItems totalPages currentPage : Z)
    (* { products, totalItems, totalPages, currentPage } *)
| Legacy (b : body).                     (* what an order route answers *)

Record reply := {
  code : Z;
  payload_of : payload
}.

Definition reply_of (r : response) : reply :=
  {| code := status r; payload_of := Legacy (json r) |}.

(** *** Statements *)

(** The WHERE clause [price] conditions of the product list. *)
Inductive band := Low | Medium | High.

Definition in_band (b : band) (p : product) : bool :=
  match b with
  | Low => p_price p <=? 10000                          (* price <= 100 *)
  | Medium => (10000 <? p_price p) && (p_price p <=? 20000)
                                              (* price > 100 AND price <= 200 *)
  | High => 20000 <? p_price p                          (* price > 200 *)
  end.

Inductive stmt : Type -> Type :=
| Core {R} (q : query R) : stmt R
| DeleteProduct (id : Z) : stmt unit
    (* DELETE FROM products WHERE id = $1 *)
| DeleteOrderItemsOfProduct (pid : Z) : stmt unit
    (* DELETE FROM order_items WHERE product_id = $1 *)
| SelectProductsOfSeller (seller_id : Z) : stmt (list product)
    (* SELECT * FROM products WHERE seller_id = $1 *)
| SelectUser (id : Z) : stmt (list user)
    (* SELECT * FROM users WHERE id = $1 *)
| SelectUserByEmail (email : string) : stmt (list user)
    (* SELECT * FROM users WHERE email = $1 *)
| InsertUser (username email password role : string) : stmt user
    (* INSERT INTO users (username, email, password, role) ... RETURNING *)
| DeleteUser (id : Z) : stmt unit
    (* DELETE FROM users WHERE id = $1 *)
| SelectWish (user_id pid : Z) : stmt (list wish)
    (* SELECT * FROM wishlist WHERE user_id = $1 AND product_id = $2 *)
| InsertWish (user_id pid : Z) : stmt unit
    (* INSERT INTO wishlist (user_id, product_id) VALUES ($1, $2) *)
| DeleteWish (user_id pid : Z) : stmt (list wish)
    (* DELETE FROM wishlist WHERE user_id = $1 AND product_id = $2
       RETURNING * *)
| SelectWishedProducts (user_id : Z) : stmt (list product)
    (* SELECT p.* FROM wishlist w JOIN products p ON w.product_id = p.id
       WHERE w.user_id = $1 *)
| InsertReview (pid user_id rating : Z) (comment : option string) : stmt unit
    (* INSERT INTO reviews (product_id, user_id, rating, comment, created_at) *)
| SelectProductsPage (search : option (product -> bool))
    (price : option (option band)) (limit offset : Z) : stmt (list product)
    (* SELECT * FROM products WHERE 1=1 [AND (name ILIKE $1 OR description
       ILIKE $1)] [AND <price condition>] LIMIT .. OFFSET .. *)
| CountProducts (search : option (product -> bool))
    (price : option (option band)) : stmt Z.
    (* SELECT COUNT FROM products WHERE 1=1 [AND ...] [AND ...], rows[0].count *)

(** The rows of a scan that satisfy the optional clauses; [None] when the
    price clause was built from an unknown filter and reads [AND undefined],
    which the database refuses. *)
Definition matching (search : option (product -> bool))
    (price : option (option band)) (db : store) : option (list product) :=
  let found :=
    match search with
    | Some like => List.filter like (scan db)
    | None => scan db
    end in
  match price with
  | None => Some found
  | Some (Some b) => Some (List.filter (in_band b) found)
  | Some None => None
  end.

Definition new_user (s : site) (username email password role : string) : user :=
  {| u_id := next_id (users s); u_username := username; u_email := email;
     u_password := password; u_role := role |}.

(** What a statement returns and does to the site; [None] when the database
    refuses it whatever the circumstances. *)
Definition exec_stmt {R} (q : stmt R) (s : site) : option (R * site) :=
  match q in stmt R return option (R * site) with
  | Core q => let '(v, db) := exec q (core s) in Some (v, with_core s db)
  | DeleteProduct id =>
      Some (tt, with_core s (with_products (core s) (delete id (products (core s)))))
  | DeleteOrderItemsOfProduct pid =>
      Some (tt, with_core s
                  (with_order_items (core s)
                     (filter (fun r => oi_product_id r <> pid)
                        (order_items (core s)))))
  | SelectProductsOfSeller seller_id =>
      Some (filter (fun p => p_seller_id p = seller_id) (scan (core s)), s)
  | SelectUser id => Some (filter (fun u => u_id u = id) (users s), s)
  | SelectUserByEmail email =>
      Some (filter (fun u => u_email u = email) (users s), s)
  | InsertUser username email password role =>
      let u := new_user s username email password role in
      Some (u, with_users s (users s ++ [u]))
  | DeleteUser id =>
      Some (tt, with_users s (filter (fun u => u_id u <> id) (users s)))
  | SelectWish user_id pid =>
      Some (filter (fun w => w_user_id w = user_id /\ w_product_id w = pid)
              (wishlist s), s)
  | InsertWish user_id pid =>
      Some (tt, with_wishlist s
                  (wishlist s ++ [{| w_id := next_id (wishlist s);
                                     w_user_id := user_id;
                                     w_product_id := pid |}]))
  | DeleteWish user_id pid =>
      Some (filter (fun w => w_user_id w = user_id /\ w_product_id w = pid)
              (wishlist s),
            with_wishlist s
              (filter (fun w => ~ (w_user_id w = user_id /\ w_product_id w = pid))
                 (wishlist s)))
  | SelectWishedProducts user_id =>
      Some (omap (fun w => products (core s) !! w_product_id w)
              (filter (fun w => w_user_id w = user_id) (wishlist s)), s)
  | InsertReview pid user_id rating comment =>
      Some (tt, with_reviews s
                  (reviews s ++ [{| r_id := next_id (reviews s);
                                    r_product_id := pid; r_user_id := user_id;
                                    r_rating := rating; r_comment := comment |}]))
  | SelectProductsPage search price limit offset =>
      if (limit <? 0) || (offset <? 0) then None
      else match matching search price (core s) with
           | Some rows =>
               Some (take (Z.to_nat limit) (drop (Z.to_nat offset) rows), s)
           | None => None
           end
  | CountProducts search price =>
      match matching search price (core s) with
      | Some rows => Some (Z.of_nat (length rows), s)
      | None => None
      end
  end.

(** *** Handlers over the site *)

Inductive proc :=
| Done (r : reply)
| Call {R} (q : stmt R) (k : R -> proc).

Record route := {
  attempt : proc;
  rescue : reply
}.

(** A handler of the order routes, as a handler over the site. *)
Fixpoint lift (p : prog) : proc :=
  match p with
  | Ret r => Done (reply_of r)
  | Await q k => Call (Core q) (fun v => lift (k v))
  end.

Definition lift_handler (h : handler) : route :=
  {| attempt := lift (try_block h); rescue := reply_of (catch_block h) |}.

(** A statement throws when the database refuses it or when [faults] says
    so; it then changes nothing and the [catch] answers. *)
Fixpoint run_proc (p : proc) (catch : reply) (faults : nat -> bool)
    (n : nat) (s : site) : reply * site :=
  match p with
  | Done r => (r, s)
  | Call q k =>
      if faults n then (catch, s)
      else match exec_stmt q s with
           | Some (v, s') => run_proc (k v) catch faults (S n) s'
           | None => (catch, s)
           end
  end.

Definition serve (r : route) (faults : nat -> bool) (s : site) : reply * site :=
  run_proc (attempt r) (rescue r) faults 0%nat s.

(** Two requests in flight on the site, no statement throwing by accident;
    a request whose statement the database refuses gets its [catch]. *)
Fixpoint race (schedule : list bool) (r1 r2 : route) (p1 p2 : proc)
    (s : site) : reply * reply * site :=
  match schedule with
  | [] =>
      let '(a1, s1) := run_proc p1 (rescue r1) no_faults 0%nat s in
      let '(a2, s2) := run_proc p2 (rescue r2) no_faults 0%nat s1 in
      (a1, a2, s2)
  | true :: rest =>
      match p1 with
      | Done _ => race rest r1 r2 p1 p2 s
      | Call q k =>
          match exec_stmt q s with
          | Some (v, s') => race rest r1 r2 (k v) p2 s'
          | None => race rest r1 r2 (Done (rescue r1)) p2 s
          end
      end
  | false :: rest =>
      match p2 with
      | Done _ => race rest r1 r2 p1 p2 s
      | Call q k =>
          match exec_stmt q s with
          | Some (v, s') => race rest r1 r2 p1 (k v) s'
          | None => race rest r1 r2 p1 (Done (rescue r2)) s
          end
      end
  end.

Definition serve_both (schedule : list bool) (r1 r2 : route) (s : site)
    : reply * reply * site :=
  race schedule r1 r2 (attempt r1) (attempt r2) s.

(** *** The middlewares *)

(** [s.split(c)] for a one-character separator. *)
Fixpoint split (c : Ascii.ascii) (s : string) : list string :=
  match s with
  | EmptyString => [EmptyString]
  | String a rest =>
      if Ascii.eqb a c then EmptyString :: split c rest
      else match split c rest with
           | w :: ws => String a w :: ws
           | [] => [String a EmptyString]
           end
  end.

(** What a middleware does with a request: it calls [next()] with
    [req.user] set, or answers itself. *)
Inductive gate :=
| Next (user : claims)
| Stop (r : reply).

Definition and_then (g : gate) (f : claims -> gate) : gate :=
  match g with
  | Next user => f user
  | Stop r => Stop r
  end.

Definition refuse (status : Z) (t : text) : reply :=
  {| code := status; payload_of := Error t |}.

Definition say (status : Z) (t : text) : reply :=
  {| code := status; payload_of := Message t |}.

Definition checkAdminOrRole (role : string) (user : claims) : gate :=
  if bool_decide (c_role user = "admin") || bool_decide (c_role user = role)
  then Next user
  else Stop (refuse 403 (RoleRequired role)).

Definition checkAdminOnly (user : claims) : gate :=
  if bool_decide (c_role user <> "admin")
  then Stop (refuse 403 AdminRequired)
  else Next user.

(** A route behind middlewares. *)
Definition behind (g : gate) (handler : claims -> route) : route :=
  match g with
  | Next user => handler user
  | Stop r => {| attempt := Done r; rescue := r |}
  end.

(** [value || fallback] for a number that [parseInt] produced ([None] is
    [NaN]) and for a string that may be absent. *)
Definition number_or (value : option Z) (fallback : Z) : Z :=
  match value with
  | Some z => if z =? 0 then fallback else z
  | None => fallback
  end.

Definition string_or (value : option string) (fallback : string) : string :=
  match value with
  | Some EmptyString => fallback
  | Some s => s
  | None => fallback
  end.

(** [Math.ceil(a / b)]. *)
Definition ceil_div (a b : Z) : Z := - ((- a) / b).

Section Libraries.

(** [jwt.verify(token, secret)]: the payload, or [None] when it throws. *)
Variable verify : string -> option claims.

(** [jwt.sign(payload, secret, { expiresIn: '1h' })]. *)
Variable sign : claims -> string.

(** [bcrypt.hash(password, 10)] with the salt it draws, and
    [bcrypt.compare(password, hash)]. *)
Variable hash : string -> string -> string.
Variable compare : string -> string -> bool.

(** [text ILIKE pattern] of the database. *)
Variable ilike : string -> string -> bool.

Definition authenticate (authorization : option string) : gate :=
  match authorization with
  | None | Some EmptyString => Stop (refuse 401 TokenMissing)
  | Some authHeader =>
      match split Ascii.Space authHeader !! 1%nat with
      | None | Some EmptyString => Stop (refuse 401 TokenFormat)
      | Some token =>
          match verify token with
          | Some decoded => Next decoded
          | None => Stop (refuse 401 TokenInvalid)
          end
      end
  end.

(** *** [app.post('/register')] and [app.post('/login')] *)

Definition register (username email : string) (password : option string)
    (role : option string) (salt : string) : route :=
  {| attempt :=
       match password with
       | None => Done (refuse 500 RegisterFailed)
       | Some pw =>
           Call (InsertUser username email (hash salt pw)
                   (string_or role "comprador"))
             (fun u =>
                Done {| code := 201;
                        payload_of := Registered (u_id u) (u_username u)
                                        (u_email u) (u_role u) |})
       end;
     rescue := refuse 500 RegisterFailed |}.

Definition login (email : string) (password : option string) : route :=
  {| attempt :=
       Call (SelectUserByEmail email) (fun rows =>
         match rows with
         | [] => Done (refuse 400 UserNotFound)
         | user :: _ =>
             match password with
             | None => Done (refuse 500 LoginFailed)
             | Some pw =>
                 if compare pw (u_password user) then
                   Done {| code := 200;
                           payload_of :=
                             LoggedIn
                               (sign {| c_id := u_id user; c_role := u_role user |})
                               (u_id user) (u_username user) (u_role user) |}
                 else Done (refuse 400 WrongPassword)
             end
         end);
     rescue := refuse 500 LoginFailed |}.

(** *** [app.get('/products')] *)

(** The clause [AND (name ILIKE $1 OR description ILIKE $1)], added when
    [search] is not empty, with [%search%] for [$1]. *)
Definition nameClause (search : string) : option (product -> bool) :=
  match search with
  | EmptyString => None
  | _ => Some (fun p => ilike ("%" +:+ search +:+ "%") (p_name p)
                        || ilike ("%" +:+ search +:+ "%") (p_description p))
  end.

(** The price condition of a [priceFilter] other than ['all']; [None] is
    the [undefined] an unknown filter leaves in the query text. *)
Definition priceCondition (priceFilter : string) : option band :=
  if bool_decide (priceFilter = "low") then Some Low
  else if bool_decide (priceFilter = "medium") then Some Medium
  else if bool_decide (priceFilter = "high") then Some High
  else None.

Definition priceClause (priceFilter : string) : option (option band) :=
  if bool_decide (priceFilter = "all") then None
  else Some (priceCondition priceFilter).

Definition listProducts (page limit : option Z) (search priceFilter : option string)
    : route :=
  let page := number_or page 1 in
  let limit := number_or limit 12 in
  let search := string_or search "" in
  let priceFilter := string_or priceFilter "all" in
  let offset := (page - 1) * limit in
  {| attempt :=
       Call (SelectProductsPage (nameClause search) (priceClause priceFilter)
               limit offset)
         (fun rows =>
            Call (CountProducts (nameClause search) (priceClause priceFilter))
              (fun totalItems =>
                 Done {| code := 200;
                         payload_of := Page rows totalItems
                                         (ceil_div totalItems limit) page |}));
     rescue := refuse 500 ListProductsFailed |}.

End Libraries.

(** *** The seller's routes on [/products/:id] *)

Definition getProduct (user_id id : Z) : route :=
  {| attempt :=
       Call (Core (SelectProductOfSeller id user_id)) (fun row =>
         match row with
         | None => Done (refuse 404 ProductNotYours)
         | Some product => Done {| code := 200; payload_of := OneProduct product |}
         end);
     rescue := refuse 500 GetProductFailed |}.


(** *** Reviews and the wishlist *)

Definition addReview (user_id id rating : Z) (comment : option string) : route :=
  {| attempt :=
       Call (Core (SelectProduct id)) (fun row =>
         match row with
         | None => Done (refuse 404 ProductNotFound)
         | Some _ =>
             Call (InsertReview id user_id rating comment)
               (fun _ => Done (say 200 ReviewAdded))
         end);
     rescue := refuse 500 AddReviewFailed |}.

Definition listWishlist (user_id : Z) : route :=
  {| attempt :=
       Call (SelectWishedProducts user_id)
         (fun rows => Done {| code := 200; payload_of := Products rows |});
     rescue := refuse 500 ListWishlistFailed |}.

Definition addWish (user_id pid : Z) : route :=
  {| attempt :=
       Call (Core (SelectProduct pid)) (fun row =>
         match row with
         | None => Done (refuse 404 ProductNotFound)
         | Some _ =>
             Call (SelectWish user_id pid) (fun existingWishlist =>
               match existingWishlist with
               | _ :: _ => Done (refuse 400 AlreadyWished)
               | [] =>
                   Call (InsertWish user_id pid)
                     (fun _ => Done (say 200 WishAdded))
               end)
         end);
     rescue := refuse 500 AddWishFailed |}.

Definition removeWish (user_id id : Z) : route :=
  {| attempt :=
       Call (DeleteWish user_id id) (fun result =>
         match result with
         | [] => Done (refuse 404 NotWished)
         | _ :: _ => Done (say 200 WishRemoved)
         end);
     rescue := refuse 500 RemoveWishFailed |}.

(** *** The administrator's routes *)

(** The loop of [DELETE /users/:id] over the seller's products. *)
Fixpoint removeProducts (rows : list product) (k : proc) : proc :=
  match rows with
  | [] => k
  | product :: rest =>
      Call (DeleteOrderItemsOfProduct (p_id product)) (fun _ =>
        Call (DeleteProduct (p_id product)) (fun _ => removeProducts rest k))
  end.

Definition deleteUser (id : Z) : route :=
  {| attempt :=
       Call (SelectUser id) (fun userResult =>
         match userResult with
         | [] => Done (refuse 404 UserNotFound)
         | _ :: _ =>
             Call (SelectProductsOfSeller id) (fun productsResult =>
               removeProducts productsResult
                 (Call (DeleteUser id) (fun _ => Done (say 200 UserRemoved))))
         end);
     rescue := refuse 500 RemoveUserFailed |}.

Definition adminDeleteProduct (id : Z) : route :=
  {| attempt :=
       Call (DeleteOrderItemsOfProduct id) (fun _ =>
         Call (Core (SelectProduct id)) (fun _ =>
           Call (DeleteProduct id) (fun _ => Done (say 200 ProductRemovedByAdmin))));
     rescue := refuse 500 AdminRemoveProductFailed |}.

(** *** Routes behind their middlewares *)

Definition postOrders (verify : string -> option claims)
    (authorization : option string) (products : option (list item)) : route :=
  behind (and_then (authenticate verify authorization)
            (checkAdminOrRole "comprador"))
    (fun user => lift_handler (placeOrder (c_id user) products)).

Definition putProduct (verify : string -> option claims)
    (authorization : option string) (id : Z) (name description : string)
    (price stock : Z) (file : option string) : route :=
  behind (and_then (authenticate verify authorization)
            (checkAdminOrRole "vendedor"))
    (fun user =>
       lift_handler (editProduct (c_id user) id name description price stock file)).

(** *** The route table *)

Inductive method := GET | POST | PUT | DELETE.

Inductive segment :=
| Lit (s : string)
| Param (name : string).

(** The handlers, in the order the source registers them. *)
Inductive endpoint :=
| RegisterUser | LoginUser | Protected | ProductsUpload | ProductGet | ProductPut
| ProductDelete | ProductsList | SellerProducts | ProductsAll
| ReviewsList | ReviewsAdd | WishlistList | WishlistAdd | WishlistRemove
| OrdersCreate | OrdersList | UsersList | UsersDelete | ProductsAdmin
| ProductsAdminDelete | Root.

Definition routes : list (method * list segment * endpoint) :=
  [ (POST, [Lit "register"], RegisterUser);
    (POST, [Lit "login"], LoginUser);
    (GET, [Lit "protected"], Protected);
    (POST, [Lit "products"; Lit "upload"], ProductsUpload);
    (GET, [Lit "products"; Param "id"], ProductGet);
    (PUT, [Lit "products"; Param "id"], ProductPut);
    (DELETE, [Lit "products"; Param "id"], ProductDelete);
    (GET, [Lit "products"], ProductsList);
    (GET, [Lit "seller"; Lit "products"], SellerProducts);
    (GET, [Lit "products"; Lit "all"], ProductsAll);
    (GET, [Lit "products"; Param "id"; Lit "reviews"], ReviewsList);
    (POST, [Lit "products"; Param "id"; Lit "reviews"], ReviewsAdd);
    (GET, [Lit "wishlist"], WishlistList);
    (POST, [Lit "wishlist"], WishlistAdd);
    (DELETE, [Lit "wishlist"; Param "id"], WishlistRemove);
    (POST, [Lit "orders"], OrdersCreate);
    (GET, [Lit "orders"], OrdersList);
    (GET, [Lit "users"], UsersList);
    (DELETE, [Lit "users"; Param "id"], UsersDelete);
    (GET, [Lit "products"; Lit "admin"], ProductsAdmin);
    (DELETE, [Lit "products"; Lit "admin"; Param "id"], ProductsAdminDelete);
    (GET, [], Root) ].

(** A path, cut at its slashes, against a route's path: a literal matches
    itself, a parameter any segment that is not empty. *)
Fixpoint matches (pattern : list segment) (path : list string) : bool :=
  match pattern, path with
  | [], [] => true
  | Lit s :: pattern', x :: path' => String.eqb s x && matches pattern' path'
  | Param _ :: pattern', x :: path' =>
      negb (String.eqb x "") && matches pattern' path'
  | _, _ => false
  end.

Definition method_eqb (a b : method) : bool :=
  match a, b with
  | GET, GET | POST, POST | PUT, PUT | DELETE, DELETE => true
  | _, _ => false
  end.

(** The first route registered for the method whose path matches: every
    handler answers, or one of its middlewares does, so none after it is
    tried. *)
Fixpoint first_match (table : list (method * list segment * endpoint))
    (m : method) (path : list string) : option endpoint :=
  match table with
  | [] => None
  | (m', pattern, e) :: rest =>
      if method_eqb m m' && matches pattern path then Some e
      else first_match rest m path
  end.

Definition dispatch (m : method) (path : list string) : option endpoint :=
  first_match routes m path.

(** *** Vocabulary for the statements about these routes *)

(** A string with no space in it. *)
Fixpoint spaceless (s : string) : bool :=
  match s with
  | EmptyString => true
  | String a rest => negb (Ascii.eqb a Ascii.Space) && spaceless rest
  end.

(** Every row of [products] is stored under its own [id]. *)
Definition keyed (db : store) : Prop :=
  forall k p, products db !! k = Some p -> p_id p = k.

(** The (user, product) pairs of the wishlist. *)
Definition wished (s : site) : list (Z * Z) :=
  map (fun w => (w_user_id w, w_product_id w)) (wishlist s).

(** The products and the count in the answer of the product list. *)
Definition listed (r : reply) : list product :=
  match payload_of r with
  | Page rows _ _ _ => rows
  | _ => []
  end.

Definition total_of (r : reply) : Z :=
  match payload_of r with
  | Page _ totalItems _ _ => totalItems
  | _ => 0
  end.

(** The rows the two queries of the product list select among. *)
Definition found (ilike : string -> string -> bool)
    (search priceFilter : option string) (s : site) : option (list product) :=
  matching (nameClause ilike (string_or search ""))
    (priceClause (string_or priceFilter "all")) (core s).

(** Sample data: the shop with product 1 of seller 9. *)
Module Sample.

Definition site_of (db : store) : site :=
  {| core := db; users := []; wishlist := []; reviews := [] |}.

Definition seller : user :=
  {| u_id := 9; u_username := "ana"; u_email := "ana@shop"; u_password := "h";
     u_role := "vendedor" |}.

Definition with_seller (db : store) : site :=
  {| core := db; users := [seller]; wishlist := []; reviews := [] |}.

(** User 7 has product 1 on the wishlist. *)
Definition wishing (db : store) : site :=
  {| core := db; users := [];
     wishlist := [{| w_id := 1; w_user_id := 7; w_product_id := 1 |}];
     reviews := [] |}.

(** A toy [jwt]: the token of [{ id, role }] is the role, and every token
    verifies as one and the same user with the token as role. *)
Definition verify_as (id : Z) (token : string) : option claims :=
  Some {| c_id := id; c_role := token |}.

Definition verify : string -> option claims := verify_as 7.

Definition sign (c : claims) : string := c_role c.

(** A toy [bcrypt]: the hash is the password after the salt. *)
Definition hash (salt password : string) : string := salt +:+ password.

Definition compare (password hashed : string) : bool :=
  bool_decide (hashed = "s" +:+ password).

(** A toy [ILIKE]: every text matches. *)
Definition ilike (pattern text : string) : bool := true.

End Sample.

(** The store once the products [ids] and the line items that name them
    have been deleted, one product after the other. *)
Fixpoint strip (ids : list Z) (db : store) : store :=
  match ids with
  | [] => db
  | id :: rest =>
      strip rest
        {| products := delete id (products db);
           orders := orders db;
           order_items := filter (fun r => oi_product_id r <> id) (order_items db) |}
  end.

(** Product [k] of [db] is sold by [seller_id]. *)
Definition sold_by (db : store) (seller_id k : Z) : Prop :=
  exists p, products db !! k = Some p /\ p_seller_id p = seller_id.

(** Reduces the projections of a store on which statements were executed. *)
Ltac reduce_store :=
  cbn [exec fst snd products orders with_products
       d_product_id d_quantity d_price Shop.entry].

(** ** Straight lines of statements *)

Lemma quiet_0 faults n : quiet faults n 0.
Proof. intros j Hj. lia. Qed.

Lemma quiet_head faults n m : quiet faults n (S m) -> faults n = false.
Proof. intros H. rewrite <- (Nat.add_0_r n). apply H. lia. Qed.

Lemma quiet_tail faults n m : quiet faults n (S m) -> quiet faults (S n) m.
Proof.
  intros H j Hj. replace (S n + j)%nat with (n + S j)%nat by lia.
  apply H. lia.
Qed.

Lemma quiet_le faults n m m' : (m' <= m)%nat -> quiet faults n m -> quiet faults n m'.
Proof. intros Hle H j Hj. apply H. lia. Qed.

Lemma quiet_shift faults n m a b :
  (a + b <= m)%nat -> quiet faults n m -> quiet faults (n + a) b.
Proof.
  intros Hle H j Hj. replace (n + a + j)%nat with (n + (a + j))%nat by lia.
  apply H. lia.
Qed.

Lemma quiet_no_faults n m : quiet no_faults n m.
Proof. intros j _. reflexivity. Qed.

Lemma first_fault_at n : first_fault (fault_at n) 0 n.
Proof.
  split.
  - intros j Hj. unfold fault_at. apply Nat.eqb_neq. lia.
  - unfold fault_at. apply Nat.eqb_eq. lia.
Qed.

(** Either nothing throws among the next [m] statements, or there is a first
    one that does. *)
Lemma quiet_or_first_fault faults n m :
  quiet faults n m \/ exists j, (j < m)%nat /\ first_fault faults n j.
Proof.
  induction m as [|m IH].
  - left. apply quiet_0.
  - destruct IH as [Hq | (j & Hj & Hf)].
    + destruct (faults (n + m)%nat) eqn:E.
      * right. exists m. split; [lia | split; assumption].
      * left. intros j Hj. destruct (decide (j = m)) as [->|Hne]; [assumption|].
        apply Hq. lia.
    + right. exists j. split; [lia | assumption].
Qed.

Lemma insertItems_do_all order_id ds k :
  insertItems order_id ds k = do_all (map (insert_of order_id) ds) k.
Proof.
  induction ds as [|d ds IH]; simpl; [reflexivity|]. rewrite IH. reflexivity.
Qed.

Lemma updateStock_do_all ds k :
  updateStock ds k = do_all (map update_of ds) k.
Proof.
  induction ds as [|d ds IH]; simpl; [reflexivity|]. rewrite IH. reflexivity.
Qed.

Lemma do_all_app qs1 qs2 k :
  do_all (qs1 ++ qs2) k = do_all qs1 (do_all qs2 k).
Proof.
  induction qs1 as [|q qs1 IH]; simpl; [reflexivity|]. rewrite IH. reflexivity.
Qed.

Lemma apply_all_app qs1 qs2 db :
  apply_all (qs1 ++ qs2) db = apply_all qs2 (apply_all qs1 db).
Proof. unfold apply_all. apply fold_left_app. Qed.

(** When none of its statements throws, a straight line applies them all
    and goes on. *)
Lemma run_do_all_quiet qs k catch faults :
  forall n db,
    quiet faults n (length qs) ->
    run_prog (do_all qs k) catch faults n db =
    run_prog k catch faults (n + length qs) (apply_all qs db).
Proof.
  induction qs as [|q qs IH]; intros n db Hq; cbn [do_all run_prog length] in *.
  - rewrite Nat.add_0_r. reflexivity.
  - rewrite (quiet_head _ _ _ Hq).
    destruct (exec q db) as [u db'] eqn:E.
    rewrite IH by (apply quiet_tail; exact Hq).
    replace (S n + length qs)%nat with (n + S (length qs))%nat by lia.
    unfold apply_all. cbn [fold_left].
    replace (apply db q) with db' by (unfold apply; rewrite E; reflexivity).
    reflexivity.
Qed.

(** When its [j]-th statement is the first to throw, the statements before
    it stay applied and the [catch] answers. *)
Lemma run_do_all_fault qs k catch faults :
  forall j n db,
    (j < length qs)%nat ->
    first_fault faults n j ->
    run_prog (do_all qs k) catch faults n db =
    (catch, apply_all (take j qs) db).
Proof.
  induction qs as [|q qs IH]; intros j n db Hj [Hq Hf];
    cbn [do_all run_prog length] in *; [lia|].
  destruct j as [|j].
  - rewrite Nat.add_0_r in Hf. rewrite Hf. reflexivity.
  - rewrite (quiet_head _ _ _ Hq).
    destruct (exec q db) as [u db'] eqn:E.
    rewrite (IH j (S n) db').
    + unfold apply_all. cbn [take fold_left].
      replace (apply db q) with db' by (unfold apply; rewrite E; reflexivity).
      reflexivity.
    + lia.
    + split; [apply quiet_tail; exact Hq|].
      replace (S n + j)%nat with (n + S j)%nat by lia. exact Hf.
Qed.

(** *** What the two write loops leave in the store *)

Lemma apply_inserts order_id ds :
  forall db,
    apply_all (map (insert_of order_id) ds) db =
    {| products := products db; orders := orders db;
       order_items := order_items db
                        ++ line_rows order_id (length (order_items db)) ds |}.
Proof.
  induction ds as [|d ds IH]; intros db; unfold apply_all in *; simpl.
  - rewrite app_nil_r. destruct db; reflexivity.
  - rewrite IH. simpl. rewrite length_app. simpl.
    rewrite <- app_assoc. simpl.
    replace (length (order_items db) + 1)%nat with (S (length (order_items db))) by lia.
    reflexivity.
Qed.

Lemma apply_updates ds :
  forall db,
    apply_all (map update_of ds) db =
    with_products db (decrement ds (products db)).
Proof.
  induction ds as [|d ds IH]; intros db; unfold apply_all in *; simpl.
  - destruct db; reflexivity.
  - rewrite IH. reflexivity.
Qed.

Lemma apply_writes order_id ds db :
  apply_all (writes order_id ds) db =
  {| products := decrement ds (products db); orders := orders db;
     order_items := order_items db
                      ++ line_rows order_id (length (order_items db)) ds |}.
Proof.
  unfold writes. rewrite apply_all_app, apply_inserts, apply_updates.
  reflexivity.
Qed.

Lemma length_writes order_id ds :
  length (writes order_id ds) = (2 * length ds)%nat.
Proof. unfold writes. rewrite length_app, !length_map. lia. Qed.

(** ** The first loop *)

Lemma js_sum_cons d ds t :
  js_sum (d :: ds) t = js_sum ds (JS.add t (line_total d)).
Proof. reflexivity. Qed.

Lemma snapshots_cons db it rest ds :
  snapshots db (it :: rest) = Some ds ->
  exists d ds', ds = d :: ds' /\ snapshot db it = Some d
                /\ snapshots db rest = Some ds'.
Proof.
  simpl. destruct (snapshot db it) as [d|]; [|discriminate].
  destruct (snapshots db rest) as [ds'|]; [|discriminate].
  intros [= <-]. eauto.
Qed.

Lemma snapshots_length db items ds :
  snapshots db items = Some ds -> length ds = length items.
Proof.
  revert ds. induction items as [|it rest IH]; intros ds H.
  - injection H as <-. reflexivity.
  - apply snapshots_cons in H as (d & ds' & -> & _ & H').
    simpl. f_equal. apply IH. exact H'.
Qed.

(** What a line that passes the checks looks like. *)
Lemma snapshot_Some db it d :
  snapshot db it = Some d ->
  exists p,
    product_id it = Some (d_product_id d) /\ quantity it = Some (d_quantity d)
    /\ d_product_id d <> 0 /\ d_quantity d <> 0
    /\ products db !! d_product_id d = Some p
    /\ d_quantity d <= p_stock p /\ d_price d = p_price p.
Proof.
  unfold snapshot.
  destruct (product_id it) as [pid|]; [|discriminate].
  destruct (quantity it) as [qty|]; [|discriminate].
  destruct (pid =? 0) eqn:Ep; [discriminate|].
  destruct (qty =? 0) eqn:Eq; [discriminate|]. simpl.
  destruct (products db !! pid) as [p|] eqn:El; [|discriminate].
  destruct (p_stock p <? qty) eqn:Es; [discriminate|].
  intros [= <-]. simpl. exists p. repeat split; try assumption; lia.
Qed.

(** One turn of the loop on a line that passes. *)
Lemma run_validate_step db it d rest total ds k catch faults n :
  snapshot db it = Some d ->
  faults n = false ->
  run_prog (validate (it :: rest) total ds k) catch faults n db =
  run_prog (validate rest (JS.add total (line_total d)) (ds ++ [d]) k)
    catch faults (S n) db.
Proof.
  unfold snapshot. intros H Hf. cbn [validate].
  destruct (product_id it) as [pid|]; [|discriminate].
  destruct (quantity it) as [qty|]; [|discriminate].
  cbn [JS.falsy].
  destruct ((pid =? 0) || (qty =? 0)); [discriminate|].
  cbn [run_prog exec]. rewrite Hf.
  destruct (products db !! pid) as [p|]; [|discriminate].
  destruct (p_stock p <? qty); [discriminate|].
  injection H as <-. reflexivity.
Qed.

(** The lines that pass are read one by one, nothing is written, and the
    loop goes on with the lines that remain. *)
Lemma run_validate_ok pre :
  forall rest total ds ds' k catch faults n db,
    snapshots db pre = Some ds' ->
    quiet faults n (length pre) ->
    run_prog (validate (pre ++ rest) total ds k) catch faults n db =
    run_prog (validate rest (js_sum ds' total) (ds ++ ds') k)
      catch faults (n + length pre) db.
Proof.
  induction pre as [|it pre IH]; intros rest total ds ds' k catch faults n db Hs Hq.
  - injection Hs as <-. simpl. rewrite app_nil_r, Nat.add_0_r. reflexivity.
  - apply snapshots_cons in Hs as (d & ds1 & -> & Hd & Hs).
    cbn [app length] in *.
    rewrite (run_validate_step db it d) by (eauto using quiet_head).
    rewrite (IH rest _ _ ds1) by (eauto using quiet_tail).
    rewrite js_sum_cons, <- app_assoc.
    replace (S n + length pre)%nat with (n + S (length pre))%nat by lia.
    reflexivity.
Qed.

(** A rejected line, or a read that throws, ends the request in the first
    loop: the store is as it was, and the answer is a 400 unless a read
    threw. *)
Lemma run_validate_stops items :
  forall total ds k catch faults n db,
    snapshots db items = None
    \/ (exists j, (j < length items)%nat /\ faults (n + j)%nat = true) ->
    exists r,
      run_prog (validate items total ds k) catch faults n db = (r, db)
      /\ ((r = catch /\ ~ quiet faults n (length items))
          \/ exists m, r = BadRequest m).
Proof.
  induction items as [|it rest IH]; intros total ds k catch faults n db H.
  - destruct H as [H | (j & Hj & _)]; [discriminate | simpl in Hj; lia].
  - cbn [validate].
    destruct (product_id it) as [pid|] eqn:Ep;
      [|cbn; eexists; split; [reflexivity | right; eauto]].
    destruct (quantity it) as [qty|] eqn:Eq;
      [|cbn [JS.falsy]; rewrite orb_true_r; eexists; split;
        [reflexivity | right; eauto]].
    cbn [JS.falsy].
    destruct ((pid =? 0) || (qty =? 0)) eqn:Ez;
      [eexists; split; [reflexivity | right; eauto]|].
    cbn [run_prog exec].
    destruct (faults n) eqn:Ef.
    { eexists; split; [reflexivity | left; split; [reflexivity|]].
      intros Hq. apply quiet_head in Hq. congruence. }
    destruct (products db !! pid) as [p|] eqn:El;
      [|eexists; split; [reflexivity | right; eauto]].
    destruct (p_stock p <? qty) eqn:Es;
      [eexists; split; [reflexivity | right; eauto]|].
    destruct (IH (JS.add total (JS.mul (JS.of_cents (p_price p)) (JS.of_Z qty)))
                (ds ++ [{| d_product_id := pid; d_quantity := qty;
                           d_price := p_price p |}])
                k catch faults (S n) db) as (r & Hr & Hcase).
    + destruct H as [H | (j & Hj & Hfj)].
      * left. simpl in H. unfold snapshot in H.
        rewrite Ep, Eq, Ez, El, Es in H.
        destruct (snapshots db rest); [discriminate | reflexivity].
      * right. destruct j as [|j].
        -- rewrite Nat.add_0_r in Hfj. congruence.
        -- exists j. split; [simpl in Hj; lia|].
           replace (S n + j)%nat with (n + S j)%nat by lia. exact Hfj.
    + exists r. split; [exact Hr|].
      destruct Hcase as [[-> Hnq] | Hm]; [left | right; exact Hm].
      split; [reflexivity|]. intros Hq. apply Hnq. apply quiet_tail. exact Hq.
Qed.

(** ** The writes *)

Lemma run_persist_quiet user_id total ds catch faults n db :
  quiet faults n (1 + 2 * length ds) ->
  let o := new_order db user_id total "pendente" in
  run_prog (persist user_id total ds) catch faults n db =
  (Created o, committed db o ds).
Proof.
  intros Hq o. unfold persist. cbn [run_prog exec].
  rewrite (quiet_head _ _ _ Hq).
  rewrite insertItems_do_all, updateStock_do_all, <- do_all_app.
  fold (writes (o_id (new_order db user_id total "pendente")) ds).
  rewrite run_do_all_quiet
    by (rewrite length_writes; apply quiet_tail; exact Hq).
  rewrite apply_writes. reflexivity.
Qed.

Lemma run_persist_fault_insert user_id total ds catch faults n db :
  faults n = true ->
  run_prog (persist user_id total ds) catch faults n db = (catch, db).
Proof. intros Hf. unfold persist. cbn [run_prog]. rewrite Hf. reflexivity. Qed.

Lemma run_persist_fault_write user_id total ds catch faults n db j :
  faults n = false ->
  (j < 2 * length ds)%nat ->
  first_fault faults (S n) j ->
  let o := new_order db user_id total "pendente" in
  run_prog (persist user_id total ds) catch faults n db =
  (catch, apply_all (take j (writes (o_id o) ds)) (with_order db o)).
Proof.
  intros Hf Hj Hff o. unfold persist. cbn [run_prog exec]. rewrite Hf.
  rewrite insertItems_do_all, updateStock_do_all, <- do_all_app.
  fold (writes (o_id (new_order db user_id total "pendente")) ds).
  rewrite (run_do_all_fault _ _ _ _ j) by (rewrite ?length_writes; assumption).
  reflexivity.
Qed.

(** ** The route as a whole *)

Lemma first_fault_split faults a b :
  first_fault faults 0 (a + b) -> quiet faults 0 a /\ first_fault faults a b.
Proof.
  intros [Hq Hf]. split; [eapply quiet_le; [|exact Hq]; lia|].
  split; [|exact Hf].
  intros j Hj. specialize (Hq (a + j)%nat). apply Hq. lia.
Qed.

(** No statement throws: the order is committed. *)
Lemma placeOrder_commits db user_id items ds faults :
  snapshots db items = Some ds ->
  quiet faults 0 (length items + (1 + 2 * length ds)) ->
  run (placeOrder user_id (Some items)) faults db =
  (Created (placed db user_id ds), committed db (placed db user_id ds) ds).
Proof.
  intros Hs Hq. unfold run. cbn [placeOrder try_block catch_block].
  rewrite <- (app_nil_r items).
  rewrite (run_validate_ok items [] _ [] ds)
    by first [assumption | (eapply quiet_le; [|exact Hq]; lia)].
  cbn [validate app].
  apply run_persist_quiet.
  apply (quiet_shift _ 0 _ (length items) _ (Nat.le_refl _) Hq).
Qed.

(** The request stops in the first loop: nothing is written. *)
Lemma placeOrder_stops db user_id items faults :
  snapshots db items = None
  \/ (exists j, (j < length items)%nat /\ faults j = true) ->
  exists r,
    run (placeOrder user_id (Some items)) faults db = (r, db)
    /\ ((r = ServerError MsgCreateOrder /\ ~ quiet faults 0 (length items))
        \/ exists m, r = BadRequest m).
Proof.
  intros H. unfold run. cbn [placeOrder try_block catch_block].
  apply run_validate_stops. exact H.
Qed.

(** The INSERT of the order row is the first statement to throw. *)
Lemma placeOrder_fault_insert db user_id items ds faults :
  snapshots db items = Some ds ->
  first_fault faults 0 (length items) ->
  run (placeOrder user_id (Some items)) faults db =
  (ServerError MsgCreateOrder, db).
Proof.
  intros Hs [Hq Hf]. unfold run. cbn [placeOrder try_block catch_block].
  rewrite <- (app_nil_r items).
  rewrite (run_validate_ok items [] _ [] ds) by assumption.
  cbn [validate app]. apply run_persist_fault_insert. exact Hf.
Qed.

(** The [j]-th statement of the two write loops is the first to throw. *)
Lemma placeOrder_fault_write db user_id items ds faults j :
  snapshots db items = Some ds ->
  (j < 2 * length ds)%nat ->
  first_fault faults 0 (length items + S j) ->
  run (placeOrder user_id (Some items)) faults db =
  (ServerError MsgCreateOrder,
   apply_all (take j (writes (o_id (placed db user_id ds)) ds))
     (with_order db (placed db user_id ds))).
Proof.
  intros Hs Hj Hff. apply first_fault_split in Hff as [Hq [Hq' Hf]].
  unfold run. cbn [placeOrder try_block catch_block].
  rewrite <- (app_nil_r items).
  rewrite (run_validate_ok items [] _ [] ds) by assumption.
  cbn [validate app]. apply run_persist_fault_write.
  - apply (quiet_head _ _ _ Hq').
  - exact Hj.
  - split.
    + apply quiet_tail. exact Hq'.
    + replace (S (0 + length items) + j)%nat with (length items + S j)%nat by lia.
      exact Hf.
Qed.

(** A 201 is answered only when every line passed and no statement threw. *)
Lemma placeOrder_created db user_id products faults o db' :
  run (placeOrder user_id products) faults db = (Created o, db') ->
  exists items ds,
    products = Some items /\ snapshots db items = Some ds
    /\ o = placed db user_id ds /\ db' = committed db o ds.
Proof.
  intros Hrun. destruct products as [items|];
    [|unfold run in Hrun; simpl in Hrun; discriminate].
  exists items. destruct (snapshots db items) as [ds|] eqn:Hs.
  - exists ds. split; [reflexivity|]. split; [reflexivity|].
    destruct (quiet_or_first_fault faults 0 (length items + (1 + 2 * length ds)))
      as [Hq | (j & Hj & Hff)].
    + rewrite (placeOrder_commits _ _ _ ds) in Hrun by assumption.
      injection Hrun as <- <-. split; reflexivity.
    + exfalso.
      destruct (Nat.lt_trichotomy j (length items)) as [Hlt | [-> | Hgt]].
      * destruct (placeOrder_stops db user_id items faults) as (r & Hr & Hc).
        { right. exists j. split; [exact Hlt | apply Hff]. }
        rewrite Hr in Hrun. injection Hrun as -> _.
        destruct Hc as [[Hc _] | [m Hc]]; discriminate.
      * rewrite (placeOrder_fault_insert _ _ _ ds) in Hrun by assumption.
        discriminate.
      * replace j with (length items + S (j - length items - 1))%nat in Hff by lia.
        rewrite (placeOrder_fault_write _ _ _ ds _ (j - length items - 1))
          in Hrun; [discriminate | assumption | lia | assumption].
  - exfalso.
    destruct (placeOrder_stops db user_id items faults) as (r & Hr & Hc);
      [left; exact Hs|].
    rewrite Hr in Hrun. injection Hrun as -> _.
    destruct Hc as [[Hc _] | [m Hc]]; discriminate.
Qed.

Lemma apply_take_writes order_id ds j db :
  apply_all (take j (writes order_id ds)) db =
  {| products := decrement (take (j - length ds) ds) (products db);
     orders := orders db;
     order_items := order_items db
                      ++ line_rows order_id (length (order_items db)) (take j ds) |}.
Proof.
  unfold writes. rewrite take_app, length_map, !firstn_map.
  rewrite apply_all_app, apply_inserts, apply_updates. reflexivity.
Qed.

(** ** C1: the three persistence steps are not one atomic unit *)

(** C1, as the spec states it, fails: product 1 has stock 5 and the request
    asks for 3 of it; the INSERT of the line item (the third statement)
    throws.  The answer is a 500, and the order row stays in the store with
    no line item and no stock change. *)
Lemma placeOrder_keeps_order_of_failed_commit :
  run (placeOrder 7 (Some [Shop.line 1 3])) (fault_at 2) (Shop.shop 1000 5) =
  (ServerError MsgCreateOrder,
   {| products := {[ 1 := Shop.productA 1000 5 ]};
      orders := [Shop.order1 7 30%float];
      order_items := [] |}).
Proof. vm_compute. reflexivity. Qed.

(** C1, amended: the route issues its writes one statement after the other
    with no transaction around them.  When every line passes its checks and
    the first statement to throw is the [j]-th after the first loop, the
    answer is a 500; for [j = 0] (the INSERT of the order row) the store is
    as it was, and for [j = S i] the order row and the [i] writes issued
    before the failing one stay. *)
Theorem placeOrder_failure_keeps_earlier_writes
    db user_id items ds faults (j : nat) :
  snapshots db items = Some ds ->
  (j <= 2 * length ds)%nat ->
  first_fault faults 0 (length items + j) ->
  run (placeOrder user_id (Some items)) faults db =
  (ServerError MsgCreateOrder,
   match j with
   | O => db
   | S i => partly_written db (placed db user_id ds) ds i
   end).
Proof.
  intros Hs Hj Hff. destruct j as [|i].
  - rewrite Nat.add_0_r in Hff. eapply placeOrder_fault_insert; eassumption.
  - rewrite (placeOrder_fault_write _ _ _ ds _ i) by (assumption || lia).
    rewrite apply_take_writes. reflexivity.
Qed.

(** The UPDATE of the stock (the fourth statement) throws: the order row
    and its line item stay. *)
Lemma placeOrder_failure_keeps_earlier_writes_witness :
  snapshots (Shop.shop 1000 5) [Shop.line 1 3] = Some [Shop.entry 1 3 1000]
  /\ (2 <= 2 * length [Shop.entry 1 3 1000])%nat
  /\ first_fault (fault_at 3) 0 (length [Shop.line 1 3] + 2)
  /\ run (placeOrder 7 (Some [Shop.line 1 3])) (fault_at 3) (Shop.shop 1000 5) =
     (ServerError MsgCreateOrder,
      partly_written (Shop.shop 1000 5)
        (placed (Shop.shop 1000 5) 7 [Shop.entry 1 3 1000])
        [Shop.entry 1 3 1000] 1).
Proof.
  assert (H1 : snapshots (Shop.shop 1000 5) [Shop.line 1 3]
               = Some [Shop.entry 1 3 1000]) by reflexivity.
  assert (H2 : (2 <= 2 * length [Shop.entry 1 3 1000])%nat) by (simpl; lia).
  assert (H3 : first_fault (fault_at 3) 0 (length [Shop.line 1 3] + 2))
    by apply (first_fault_at 3).
  refine (conj H1 (conj H2 (conj H3 _))).
  exact (placeOrder_failure_keeps_earlier_writes
           (Shop.shop 1000 5) 7 [Shop.line 1 3] [Shop.entry 1 3 1000]
           (fault_at 3) 2 H1 H2 H3).
Defined.

(** ** C2: the total is accumulated in JavaScript numbers and rounded by the column *)

Lemma rows_total_line_rows order_id ds :
  forall n total,
    fold_left
      (fun t r => JS.add t (JS.mul (JS.of_cents (oi_price r)) (JS.of_Z (oi_quantity r))))
      (line_rows order_id n ds) total
    = js_sum ds total.
Proof.
  induction ds as [|d ds IH]; intros n total; [reflexivity|].
  simpl. rewrite IH. reflexivity.
Qed.

Lemma line_rows_order_id order_id ds :
  forall n, Forall (fun r => oi_order_id r = order_id) (line_rows order_id n ds).
Proof.
  induction ds as [|d ds IH]; intros n; simpl; constructor; auto.
Qed.

(** C2, as the spec states it, fails: with the product priced 100000.01, a
    request for 2000000000 units and for -1999999999 units is committed.
    In exact decimal arithmetic its lines sum to 100000.01 (10000001
    hundredths); the handler's binary64 sum is 100000.03125 and the column
    keeps 100000.03. *)
Lemma placeOrder_total_differs_from_exact_sum :
  run (placeOrder 7 (Some [Shop.line 1 2000000000; Shop.line 1 (-1999999999)]))
      no_faults (Shop.shop 10000001 2000000000) =
  (Created (Shop.order1 7 (JS.of_cents 10000003)),
   {| products := {[ 1 := Shop.productA 10000001 1999999999 ]};
      orders := [Shop.order1 7 (JS.of_cents 10000003)];
      order_items := [Shop.row 1 1 2000000000 10000001;
                      Shop.row 2 1 (-1999999999) 10000001] |})
  /\ exact_cents [Shop.entry 1 2000000000 10000001;
                  Shop.entry 1 (-1999999999) 10000001] = 10000001
  /\ JS.to_cents (JS.of_cents 10000003) = Some 10000003
  /\ PrimFloat.eqb (JS.of_cents 10000003) (JS.of_cents 10000001) = false.
Proof. vm_compute. repeat split. Qed.

(** C2, amended: in every successful commit the order row and its line
    items are appended to the store, and the order's total is the sum of
    price times quantity over those line items accumulated from 0 in
    JavaScript numbers (binary64, each product and each partial sum
    rounded) and then rounded to hundredths by the [decimal(10,2)] column.
    It need not be the exact decimal sum. *)
Theorem placeOrder_total_is_rounded_js_sum db user_id products faults o db' :
  run (placeOrder user_id products) faults db = (Created o, db') ->
  exists rows,
    orders db' = orders db ++ [o]
    /\ order_items db' = order_items db ++ rows
    /\ Forall (fun r => oi_order_id r = o_id o) rows
    /\ o_total o = JS.stored (rows_total rows).
Proof.
  intros Hrun.
  apply placeOrder_created in Hrun as (items & ds & -> & Hs & Ho & ->).
  exists (line_rows (o_id o) (length (order_items db)) ds).
  repeat split.
  - apply line_rows_order_id.
  - unfold rows_total. rewrite rows_total_line_rows. rewrite Ho. reflexivity.
Qed.

(** The scenario of the spec: three units at 10.00 give a total of 30, and
    three units at 0.10 a total of 0.30. *)
Lemma placeOrder_total_is_rounded_js_sum_witness :
  run (placeOrder 7 (Some [Shop.line 1 3])) no_faults (Shop.shop 1000 5) =
  (Created (Shop.order1 7 30%float),
   {| products := {[ 1 := Shop.productA 1000 2 ]};
      orders := [Shop.order1 7 30%float];
      order_items := [Shop.row 1 1 3 1000] |})
  /\ (exists rows,
       [Shop.order1 7 30%float] = [] ++ [Shop.order1 7 30%float]
       /\ [Shop.row 1 1 3 1000] = [] ++ rows
       /\ Forall (fun r => oi_order_id r = 1) rows
       /\ 30%float = JS.stored (rows_total rows))
  /\ (exists rows,
       [Shop.order1 7 (JS.of_cents 30)] = [] ++ [Shop.order1 7 (JS.of_cents 30)]
       /\ [Shop.row 1 1 3 10] = [] ++ rows
       /\ Forall (fun r => oi_order_id r = 1) rows
       /\ JS.of_cents 30 = JS.stored (rows_total rows)).
Proof.
  assert (H : run (placeOrder 7 (Some [Shop.line 1 3])) no_faults (Shop.shop 1000 5) =
              (Created (Shop.order1 7 30%float),
               {| products := {[ 1 := Shop.productA 1000 2 ]};
                  orders := [Shop.order1 7 30%float];
                  order_items := [Shop.row 1 1 3 1000] |}))
    by (vm_compute; reflexivity).
  assert (H' : run (placeOrder 7 (Some [Shop.line 1 3])) no_faults (Shop.shop 10 5) =
              (Created (Shop.order1 7 (JS.of_cents 30)),
               {| products := {[ 1 := Shop.productA 10 2 ]};
                  orders := [Shop.order1 7 (JS.of_cents 30)];
                  order_items := [Shop.row 1 1 3 10] |}))
    by (vm_compute; reflexivity).
  refine (conj H (conj _ _)).
  - exact (placeOrder_total_is_rounded_js_sum _ _ _ _ _ _ H).
  - exact (placeOrder_total_is_rounded_js_sum _ _ _ _ _ _ H').
Defined.

(** ** Stock after the third loop *)





(** ** C3: stock after a commit *)

(** C3 fails on the code for a request that names a product twice: with
    stock 5, two lines of 3 units each are both accepted, and the commit
    leaves the stock at -1 (neither 5 - 3 nor a non-negative number). *)
Theorem placeOrder_duplicate_lines_drive_stock_negative :
  run (placeOrder 7 (Some [Shop.line 1 3; Shop.line 1 3])) no_faults
    (Shop.shop 1000 5) =
  (Created (Shop.order1 7 60%float),
   {| products := {[ 1 := Shop.productA 1000 (-1) ]};
      orders := [Shop.order1 7 60%float];
      order_items := [Shop.row 1 1 3 1000; Shop.row 2 1 3 1000] |}).
Proof. vm_compute. reflexivity. Qed.

(** ** C10: a product named in several lines *)



(** ** C5: a rejected line leaves the store untouched *)

Lemma fails_validation_snapshot db it :
  fails_validation db it -> snapshot db it = None.
Proof.
  unfold snapshot.
  intros [[H | H] | (pid & qty & Hp & Hq & Hpz & Hqz & Hl)].
  - destruct (product_id it) as [pid|]; [|reflexivity].
    destruct (quantity it); [|reflexivity].
    simpl in H. rewrite H. reflexivity.
  - destruct (product_id it) as [pid|]; [|reflexivity].
    destruct (quantity it) as [qty|]; [|reflexivity].
    simpl in H. rewrite H, orb_true_r. reflexivity.
  - rewrite Hp, Hq. destruct ((pid =? 0) || (qty =? 0)); [reflexivity|].
    destruct (products db !! pid) as [p|]; [|reflexivity].
    apply Z.ltb_lt in Hl. rewrite Hl. reflexivity.
Qed.

Lemma snapshot_fails_validation db it :
  snapshot db it = None -> fails_validation db it.
Proof.
  unfold snapshot, fails_validation, malformed, unavailable.
  destruct (product_id it) as [pid|]; [|left; left; reflexivity].
  destruct (quantity it) as [qty|]; [|left; right; reflexivity].
  cbn [JS.falsy].
  destruct (pid =? 0) eqn:Ep; [left; left; reflexivity|].
  destruct (qty =? 0) eqn:Eq; [left; right; reflexivity|].
  apply Z.eqb_neq in Ep, Eq. cbn [orb]. intros H.
  right. exists pid, qty. repeat split; try assumption.
  destruct (products db !! pid) as [p|]; [|exact I].
  destruct (p_stock p <? qty) eqn:Es; [apply Z.ltb_lt; exact Es | discriminate].
Qed.

Lemma snapshots_None db items it :
  In it items -> snapshot db it = None -> snapshots db items = None.
Proof.
  induction items as [|it' rest IH]; intros Hin Hnone; [destruct Hin|].
  simpl. destruct Hin as [-> | Hin].
  - rewrite Hnone. reflexivity.
  - rewrite (IH Hin Hnone). destruct (snapshot db it'); reflexivity.
Qed.

(** C5, as the spec states it, fails: a line asking for -2 units is
    malformed by the spec's rule that a quantity is a positive integer, yet
    it is none of the lines the handler's checks reject; the request is
    answered 201, and an order row and a line item exist afterwards, with
    the stock raised from 5 to 7. *)
Lemma placeOrder_commits_a_line_of_negative_quantity :
  quantity (Shop.line 1 (-2)) = Some (-2)
  /\ ~ fails_validation (Shop.shop 1000 5) (Shop.line 1 (-2))
  /\ run (placeOrder 7 (Some [Shop.line 1 (-2)])) no_faults (Shop.shop 1000 5) =
     (Created (Shop.order1 7 (-20)%float),
      {| products := {[ 1 := Shop.productA 1000 7 ]};
         orders := [Shop.order1 7 (-20)%float];
         order_items := [Shop.row 1 1 (-2) 1000] |}).
Proof.
  split; [reflexivity|]. split; [|vm_compute; reflexivity].
  intros Hfail. apply fails_validation_snapshot in Hfail.
  vm_compute in Hfail. discriminate Hfail.
Qed.

(** C5, amended: when some line of the request is one the handler's checks
    reject (a missing or zero field, a product that does not exist, a
    quantity above the stock), the request is answered with an error (400,
    or 500 when a read threw) and the store is exactly as before: no order
    row, no line item, no stock change.  A line of negative quantity is not
    among them. *)
Theorem placeOrder_validation_failure_writes_nothing
    db user_id items faults it :
  In it items ->
  fails_validation db it ->
  exists r,
    run (placeOrder user_id (Some items)) faults db = (r, db)
    /\ (status r = 400 \/ status r = 500)
    /\ (quiet faults 0 (length items) -> status r = 400).
Proof.
  intros Hin Hfail.
  destruct (placeOrder_stops db user_id items faults) as (r & Hr & Hc).
  { left. eapply snapshots_None; [exact Hin|].
    apply fails_validation_snapshot. exact Hfail. }
  exists r. split; [exact Hr|].
  destruct Hc as [[-> Hnq] | [m ->]].
  - split; [right; reflexivity | intros Hq; contradiction].
  - split; [left; reflexivity | intros _; reflexivity].
Qed.

(** Stock 2, five units asked, after a line that passes. *)
Lemma placeOrder_validation_failure_writes_nothing_witness :
  In (Shop.line 1 5) [Shop.line 1 1; Shop.line 1 5]
  /\ fails_validation (Shop.shop 1000 2) (Shop.line 1 5)
  /\ exists r,
       run (placeOrder 7 (Some [Shop.line 1 1; Shop.line 1 5])) no_faults
         (Shop.shop 1000 2) = (r, Shop.shop 1000 2)
       /\ (status r = 400 \/ status r = 500)
       /\ (quiet no_faults 0 (length [Shop.line 1 1; Shop.line 1 5])
           -> status r = 400).
Proof.
  assert (H1 : In (Shop.line 1 5) [Shop.line 1 1; Shop.line 1 5])
    by (right; left; reflexivity).
  assert (H2 : fails_validation (Shop.shop 1000 2) (Shop.line 1 5)).
  { right. exists 1, 5. repeat split; try discriminate. }
  refine (conj H1 (conj H2 _)).
  exact (placeOrder_validation_failure_writes_nothing
           (Shop.shop 1000 2) 7 _ no_faults _ H1 H2).
Defined.

(** ** C6: one error for a missing product and for a short stock *)

(** C6, as the spec states it, fails: asking five units of product 1 gets
    the very same response (status 400, the message naming product 1, no
    quantities) from a store where product 1 does not exist and from a
    store where it has a stock of 2. *)
Lemma placeOrder_one_error_for_missing_and_short :
  run (placeOrder 7 (Some [Shop.line 1 5])) no_faults Shop.empty_shop =
  (BadRequest (MsgUnavailable 1), Shop.empty_shop)
  /\ run (placeOrder 7 (Some [Shop.line 1 5])) no_faults (Shop.shop 1000 2) =
     (BadRequest (MsgUnavailable 1), Shop.shop 1000 2).
Proof. split; vm_compute; reflexivity. Qed.

(** C6, amended: when the lines before it pass and no read throws, a line
    whose product does not exist or has less stock than the quantity asked
    ends the request with status 400 and one and the same error, which
    names the product id and nothing else; the store is as it was. *)
Theorem placeOrder_unavailable_product
    db user_id pre it post pid ds faults :
  snapshots db pre = Some ds ->
  unavailable db it pid ->
  quiet faults 0 (S (length pre)) ->
  run (placeOrder user_id (Some (pre ++ it :: post))) faults db =
  (BadRequest (MsgUnavailable pid), db).
Proof.
  intros Hs (qty & Hp & Hq & Hpz & Hqz & Hl) Hquiet.
  unfold run. cbn [placeOrder try_block catch_block].
  rewrite (run_validate_ok pre (it :: post) _ [] ds)
    by first [assumption | (eapply quiet_le; [|exact Hquiet]; lia)].
  cbn [validate]. rewrite Hp, Hq. cbn [JS.falsy].
  apply Z.eqb_neq in Hpz, Hqz. rewrite Hpz, Hqz. cbn [orb run_prog exec].
  assert (faults (0 + length pre)%nat = false) as ->
    by (apply Hquiet; lia).
  destruct (products db !! pid) as [p|]; [|reflexivity].
  apply Z.ltb_lt in Hl. rewrite Hl. reflexivity.
Qed.

(** The scenario of the spec: stock 2, five units asked. *)
Lemma placeOrder_unavailable_product_witness :
  snapshots (Shop.shop 1000 2) [] = Some []
  /\ unavailable (Shop.shop 1000 2) (Shop.line 1 5) 1
  /\ quiet no_faults 0 (S (length (@nil item)))
  /\ run (placeOrder 7 (Some ([] ++ Shop.line 1 5 :: []))) no_faults
       (Shop.shop 1000 2) =
     (BadRequest (MsgUnavailable 1), Shop.shop 1000 2).
Proof.
  assert (H1 : snapshots (Shop.shop 1000 2) [] = Some []) by reflexivity.
  assert (H2 : unavailable (Shop.shop 1000 2) (Shop.line 1 5) 1).
  { exists 5. repeat split; try discriminate. }
  assert (H3 : quiet no_faults 0 (S (length (@nil item))))
    by apply quiet_no_faults.
  refine (conj H1 (conj H2 (conj H3 _))).
  exact (placeOrder_unavailable_product
           (Shop.shop 1000 2) 7 [] (Shop.line 1 5) [] 1 [] no_faults H1 H2 H3).
Defined.

(** ** C7: what the input checks reject *)

(** C7, as the spec states it, fails: an empty list is committed as an
    order with total 0 and no line, and a line with quantity -1 is
    committed too, raising the stock from 5 to 6. *)
Lemma placeOrder_accepts_empty_list_and_negative_quantity :
  run (placeOrder 7 (Some [])) no_faults (Shop.shop 1000 5) =
  (Created (Shop.order1 7 0%float),
   {| products := {[ 1 := Shop.productA 1000 5 ]};
      orders := [Shop.order1 7 0%float];
      order_items := [] |})
  /\ run (placeOrder 7 (Some [Shop.line 1 (-1)])) no_faults (Shop.shop 1000 5) =
     (Created (Shop.order1 7 (-10)%float),
      {| products := {[ 1 := Shop.productA 1000 6 ]};
         orders := [Shop.order1 7 (-10)%float];
         order_items := [Shop.row 1 1 (-1) 1000] |}).
Proof. split; vm_compute; reflexivity. Qed.

(** C7, amended: a request whose [products] is missing or is not an array
    is answered 400 before any statement is issued, and so is a request
    whose first line lacks a product id or a quantity (absent or 0); a
    request with such a line anywhere is answered 400 (500 when a read
    threw) with the store as it was.  Empty arrays and negative quantities
    are not rejected. *)
Theorem placeOrder_input_checks user_id :
  try_block (placeOrder user_id None) = Ret (BadRequest MsgProductsRequired)
  /\ (forall it rest,
        malformed it ->
        try_block (placeOrder user_id (Some (it :: rest))) =
        Ret (BadRequest MsgItemFields))
  /\ (forall db items faults it,
        In it items ->
        malformed it ->
        exists r,
          run (placeOrder user_id (Some items)) faults db = (r, db)
          /\ (status r = 400 \/ status r = 500)
          /\ (quiet faults 0 (length items) -> status r = 400)).
Proof.
  split; [reflexivity|]. split.
  - intros it rest Hm. cbn [placeOrder try_block validate].
    assert (JS.falsy (product_id it) || JS.falsy (quantity it) = true) as ->;
      [|reflexivity].
    destruct Hm as [-> | ->]; [reflexivity | apply orb_true_r].
  - intros db items faults it Hin Hm.
    assert (Hnone : snapshots db items = None).
    { eapply snapshots_None; [exact Hin|].
      apply fails_validation_snapshot. left. exact Hm. }
    destruct (placeOrder_stops db user_id items faults (or_introl Hnone))
      as (r & Hr & [[-> Hnq] | [m ->]]); eexists; (split; [exact Hr|]).
    + split; [right; reflexivity | intros Hq; contradiction].
    + split; [left; reflexivity | intros _; reflexivity].
Qed.

(** A line with quantity 0 after a line that passes. *)
Lemma placeOrder_input_checks_witness :
  In (Shop.line 1 0) [Shop.line 1 1; Shop.line 1 0]
  /\ malformed (Shop.line 1 0)
  /\ exists r,
       run (placeOrder 7 (Some [Shop.line 1 1; Shop.line 1 0])) no_faults
         (Shop.shop 1000 5) = (r, Shop.shop 1000 5)
       /\ (status r = 400 \/ status r = 500)
       /\ (quiet no_faults 0 (length [Shop.line 1 1; Shop.line 1 0])
           -> status r = 400).
Proof.
  assert (H1 : In (Shop.line 1 0) [Shop.line 1 1; Shop.line 1 0])
    by (right; left; reflexivity).
  assert (H2 : malformed (Shop.line 1 0)) by (right; reflexivity).
  refine (conj H1 (conj H2 _)).
  exact (proj2 (proj2 (placeOrder_input_checks 7))
           (Shop.shop 1000 5) _ no_faults _ H1 H2).
Defined.

(** ** C4: two requests for the last unit *)

Lemma run_prog_no_faults_index p catch :
  forall n m db,
    run_prog p catch no_faults n db = run_prog p catch no_faults m db.
Proof.
  induction p as [r | R q k IH]; intros n m db; cbn [run_prog].
  - reflexivity.
  - unfold no_faults at 1 3. destruct (exec q db) as [v db']. apply IH.
Qed.

(** Once a handler has answered, the other one runs alone. *)
Lemma interleave_ret_l schedule r1 :
  forall p2 db,
    interleave schedule (Ret r1) p2 db =
    (r1, fst (run_prog p2 (ServerError MsgCreateOrder) no_faults 0 db),
     snd (run_prog p2 (ServerError MsgCreateOrder) no_faults 0 db)).
Proof.
  induction schedule as [|[|] s IH]; intros p2 db; cbn [interleave].
  - cbn [run_prog]. destruct (run_prog p2 _ _ _ db). reflexivity.
  - apply IH.
  - destruct p2 as [r2 | R q k]; [apply IH|].
    cbn [run_prog]. unfold no_faults at 1 3.
    destruct (exec q db) as [v db']. rewrite IH.
    rewrite (run_prog_no_faults_index _ _ 1%nat 0%nat). reflexivity.
Qed.

Lemma interleave_ret_r schedule r2 :
  forall p1 db,
    interleave schedule p1 (Ret r2) db =
    (fst (run_prog p1 (ServerError MsgCreateOrder) no_faults 0 db), r2,
     snd (run_prog p1 (ServerError MsgCreateOrder) no_faults 0 db)).
Proof.
  induction schedule as [|[|] s IH]; intros p1 db; cbn [interleave].
  - destruct (run_prog p1 _ _ _ db). reflexivity.
  - destruct p1 as [r1 | R q k]; [apply IH|].
    cbn [run_prog]. unfold no_faults at 1 3.
    destruct (exec q db) as [v db']. rewrite IH.
    rewrite (run_prog_no_faults_index _ _ 1%nat 0%nat). reflexivity.
  - apply IH.
Qed.

Lemma interleave_first schedule R (q : query R) k p2 db :
  interleave (true :: schedule) (Await q k) p2 db =
  interleave schedule (k (fst (exec q db))) p2 (snd (exec q db)).
Proof. cbn [interleave]. destruct (exec q db). reflexivity. Qed.

Lemma interleave_second schedule R (q : query R) k p1 db :
  interleave (false :: schedule) p1 (Await q k) db =
  interleave schedule p1 (k (fst (exec q db))) (snd (exec q db)).
Proof. cbn [interleave]. destruct (exec q db). reflexivity. Qed.

(** The handler of a request for one unit of product [id]. *)
Lemma placeOrder_one_unit user_id id :
  id <> 0 ->
  try_block (placeOrder user_id (Some [Shop.line id 1])) =
  Await (SelectProduct id) (fun product =>
    match product with
    | None => Ret (BadRequest (MsgUnavailable id))
    | Some p =>
        if p_stock p <? 1 then Ret (BadRequest (MsgUnavailable id))
        else persist user_id
               (JS.add PrimFloat.zero (line_total (Shop.entry id 1 (p_price p))))
               [Shop.entry id 1 (p_price p)]
    end).
Proof.
  intros Hid. apply Z.eqb_neq in Hid.
  cbn [placeOrder try_block validate Shop.line product_id quantity JS.falsy].
  rewrite Hid. reflexivity.
Qed.

Lemma run_one_unit_sold_out db user_id id p :
  id <> 0 -> products db !! id = Some p -> p_stock p < 1 ->
  run_prog (try_block (placeOrder user_id (Some [Shop.line id 1])))
    (ServerError MsgCreateOrder) no_faults 0 db =
  (BadRequest (MsgUnavailable id), db).
Proof.
  intros Hid Hl Hs. rewrite placeOrder_one_unit by exact Hid.
  cbn [run_prog exec]. unfold no_faults at 1. rewrite Hl.
  apply Z.ltb_lt in Hs. rewrite Hs. reflexivity.
Qed.

(** C4, as the spec states it, fails: product 1 has one unit left and two
    requests ask for it; the second request's SELECT is executed before the
    first request's UPDATE.  Both requests are answered 201 and the stock
    ends at -1. *)
Lemma placeOrder_interleaved_requests_oversell :
  interleave [true; false]
    (try_block (placeOrder 7 (Some [Shop.line 1 1])))
    (try_block (placeOrder 8 (Some [Shop.line 1 1])))
    (Shop.shop 1000 1) =
  (Created (Shop.order1 7 10%float),
   Created {| o_id := 2; o_buyer_id := 8; o_total := 10%float;
              o_status := "pendente" |},
   {| products := {[ 1 := Shop.productA 1000 (-1) ]};
      orders := [Shop.order1 7 10%float;
                 {| o_id := 2; o_buyer_id := 8; o_total := 10%float;
                    o_status := "pendente" |}];
      order_items := [Shop.row 1 1 1 1000;
                      {| oi_id := 2; oi_order_id := 2; oi_product_id := 1;
                         oi_quantity := 1; oi_price := 1000 |}] |}).
Proof. vm_compute. reflexivity. Qed.

(** C4, amended: with one unit in stock and two requests each asking for
    it, whenever the four statements of one request are all executed before
    the first statement of the other, that request is answered 201, the
    other is answered 400 with the error naming the product, and the stock
    ends at 0.  (When their statements interleave, both can succeed.) *)
Theorem placeOrder_last_unit_goes_to_the_first_request
    db id p (user1 user2 : Z) (b : bool) (rest : list bool) :
  id <> 0 ->
  products db !! id = Some p ->
  p_stock p = 1 ->
  exists o db',
    interleave (repeat b 4 ++ rest)
      (try_block (placeOrder user1 (Some [Shop.line id 1])))
      (try_block (placeOrder user2 (Some [Shop.line id 1]))) db =
    (if b then (Created o, BadRequest (MsgUnavailable id), db')
     else (BadRequest (MsgUnavailable id), Created o, db'))
    /\ o_buyer_id o = (if b then user1 else user2)
    /\ stock_of db' id = Some 0
    /\ orders db' = orders db ++ [o].
Proof.
  intros Ha Hl Hs.
  assert (Hge : (p_stock p <? 1) = false) by (apply Z.ltb_ge; lia).
  destruct b; cbn [repeat app].
  - set (p2 := try_block (placeOrder user2 _)).
    rewrite (placeOrder_one_unit user1 id Ha).
    rewrite interleave_first. cbn [exec fst snd]. rewrite Hl, Hge.
    unfold persist. rewrite interleave_first. cbn [insertItems updateStock].
    rewrite !interleave_first. rewrite interleave_ret_l.
    subst p2. erewrite run_one_unit_sold_out.
    + eexists. eexists. split; [reflexivity|].
      split; [reflexivity|]. split; [|reflexivity].
      unfold stock_of. reduce_store.
      rewrite lookup_alter_eq, Hl. cbn. rewrite Hs. reflexivity.
    + exact Ha.
    + reduce_store. rewrite lookup_alter_eq, Hl. reflexivity.
    + cbn. lia.
  - set (p1 := try_block (placeOrder user1 _)).
    rewrite (placeOrder_one_unit user2 id Ha).
    rewrite interleave_second. cbn [exec fst snd]. rewrite Hl, Hge.
    unfold persist. rewrite interleave_second. cbn [insertItems updateStock].
    rewrite !interleave_second. rewrite interleave_ret_r.
    subst p1. erewrite run_one_unit_sold_out.
    + eexists. eexists. split; [reflexivity|].
      split; [reflexivity|]. split; [|reflexivity].
      unfold stock_of. reduce_store.
      rewrite lookup_alter_eq, Hl. cbn. rewrite Hs. reflexivity.
    + exact Ha.
    + reduce_store. rewrite lookup_alter_eq, Hl. reflexivity.
    + cbn. lia.
Qed.

(** The second request goes first and gets the unit. *)
Lemma placeOrder_last_unit_goes_to_the_first_request_witness :
  1 <> 0
  /\ products (Shop.shop 1000 1) !! 1 = Some (Shop.productA 1000 1)
  /\ p_stock (Shop.productA 1000 1) = 1
  /\ exists o db',
       interleave (repeat false 4 ++ [true; true])
         (try_block (placeOrder 7 (Some [Shop.line 1 1])))
         (try_block (placeOrder 8 (Some [Shop.line 1 1]))) (Shop.shop 1000 1) =
       (BadRequest (MsgUnavailable 1), Created o, db')
       /\ o_buyer_id o = 8
       /\ stock_of db' 1 = Some 0
       /\ orders db' = orders (Shop.shop 1000 1) ++ [o].
Proof.
  assert (H1 : 1 <> 0) by discriminate.
  assert (H2 : products (Shop.shop 1000 1) !! 1 = Some (Shop.productA 1000 1))
    by reflexivity.
  assert (H3 : p_stock (Shop.productA 1000 1) = 1) by reflexivity.
  refine (conj H1 (conj H2 (conj H3 _))).
  exact (placeOrder_last_unit_goes_to_the_first_request
           (Shop.shop 1000 1) 1 (Shop.productA 1000 1) 7 8 false [true; true]
           H1 H2 H3).
Defined.

(** ** C8: line items keep the price read during validation *)

Lemma line_rows_snapshot_row db order_id items :
  forall ds n,
    snapshots db items = Some ds ->
    Forall2 (snapshot_row db order_id) items (line_rows order_id n ds).
Proof.
  induction items as [|it rest IH]; intros ds n Hs.
  - injection Hs as <-. constructor.
  - apply snapshots_cons in Hs as (d & ds' & -> & Hd & Hs).
    cbn [line_rows]. constructor; [|apply IH; exact Hs].
    apply snapshot_Some in Hd as (p & Hp & Hq & _ & _ & Hl & _ & Hprice).
    unfold snapshot_row, price_of. cbn.
    rewrite Hl. cbn. rewrite Hprice. repeat split; assumption.
Qed.

(** Editing a product touches neither [orders] nor [order_items]. *)
Lemma editProduct_keeps_orders user_id id name description price stock file
    faults db :
  orders (snd (run (editProduct user_id id name description price stock file)
                 faults db)) = orders db
  /\ order_items
       (snd (run (editProduct user_id id name description price stock file)
               faults db)) = order_items db.
Proof.
  unfold run. cbn [editProduct try_block catch_block run_prog].
  destruct (faults 0%nat); [split; reflexivity|].
  cbn [exec].
  destruct (products db !! id) as [p|]; [|split; reflexivity].
  destruct (p_seller_id p =? user_id); [|split; reflexivity].
  cbn [run_prog]. destruct (faults 1%nat); split; reflexivity.
Qed.

(** C8: in every successful commit, the line items appended to the store
    match the lines of the request one for one, each with the price its
    product had in the store the request was validated against; and an edit
    of a product made afterwards, whatever price it sets, leaves the rows of
    [orders] and [order_items] as they are. *)
Theorem placeOrder_records_price_at_purchase
    db user_id products faults o db' :
  run (placeOrder user_id products) faults db = (Created o, db') ->
  exists items rows,
    products = Some items
    /\ order_items db' = order_items db ++ rows
    /\ Forall2 (snapshot_row db (o_id o)) items rows
    /\ forall seller id name description price stock file faults',
         orders (snd (run (editProduct seller id name description price
                             stock file) faults' db')) = orders db'
         /\ order_items (snd (run (editProduct seller id name description price
                                     stock file) faults' db')) = order_items db'.
Proof.
  intros Hrun.
  apply placeOrder_created in Hrun as (items & ds & -> & Hs & Ho & ->).
  exists items, (line_rows (o_id o) (length (order_items db)) ds).
  split; [reflexivity|]. split; [reflexivity|].
  split; [apply line_rows_snapshot_row; exact Hs|].
  intros. apply editProduct_keeps_orders.
Qed.

(** The scenario of the spec, then the seller raises the price. *)
Lemma placeOrder_records_price_at_purchase_witness :
  run (placeOrder 7 (Some [Shop.line 1 3])) no_faults (Shop.shop 1000 5) =
  (Created (Shop.order1 7 30%float),
   {| products := {[ 1 := Shop.productA 1000 2 ]};
      orders := [Shop.order1 7 30%float];
      order_items := [Shop.row 1 1 3 1000] |})
  /\ order_items
       (snd (run (editProduct 9 1 "A" "" 2500 2 None) no_faults
               {| products := {[ 1 := Shop.productA 1000 2 ]};
                  orders := [Shop.order1 7 30%float];
                  order_items := [Shop.row 1 1 3 1000] |}))
     = [Shop.row 1 1 3 1000].
Proof.
  assert (H : run (placeOrder 7 (Some [Shop.line 1 3])) no_faults (Shop.shop 1000 5) =
              (Created (Shop.order1 7 30%float),
               {| products := {[ 1 := Shop.productA 1000 2 ]};
                  orders := [Shop.order1 7 30%float];
                  order_items := [Shop.row 1 1 3 1000] |}))
    by (vm_compute; reflexivity).
  refine (conj H _).
  destruct (placeOrder_records_price_at_purchase _ _ _ _ _ _ H)
    as (items & rows & _ & _ & _ & Hedit).
  exact (proj2 (Hedit 9 1 "A"%string ""%string 2500 2 None no_faults)).
Defined.

(** ** C9: the status of a new order *)

(** C9 fails on the code: every order the route commits is stored with the
    status text [pendente], which is none of the values the [Order] entity
    documents ([pending], [paid], [shipped], [delivered], [cancelled]). *)
Theorem placeOrder_status_is_pendente db user_id products faults o db' :
  run (placeOrder user_id products) faults db = (Created o, db') ->
  In o (orders db')
  /\ o_status o = "pendente"%string
  /\ ~ In (o_status o) order_statuses.
Proof.
  intros Hrun.
  apply placeOrder_created in Hrun as (items & ds & -> & Hs & -> & ->).
  split; [|split].
  - cbn [committed orders]. apply in_or_app. right. left. reflexivity.
  - reflexivity.
  - cbn [placed new_order o_status order_statuses In].
    intros [H | [H | [H | [H | [H | []]]]]]; discriminate H.
Qed.

Lemma placeOrder_status_is_pendente_witness :
  run (placeOrder 7 (Some [Shop.line 1 3])) no_faults (Shop.shop 1000 5) =
  (Created (Shop.order1 7 30%float),
   {| products := {[ 1 := Shop.productA 1000 2 ]};
      orders := [Shop.order1 7 30%float];
      order_items := [Shop.row 1 1 3 1000] |})
  /\ o_status (Shop.order1 7 30%float) = "pendente"%string
  /\ ~ In (o_status (Shop.order1 7 30%float)) order_statuses.
Proof.
  assert (H : run (placeOrder 7 (Some [Shop.line 1 3])) no_faults (Shop.shop 1000 5) =
              (Created (Shop.order1 7 30%float),
               {| products := {[ 1 := Shop.productA 1000 2 ]};
                  orders := [Shop.order1 7 30%float];
                  order_items := [Shop.row 1 1 3 1000] |}))
    by (vm_compute; reflexivity).
  refine (conj H _).
  exact (proj2 (placeOrder_status_is_pendente _ _ _ _ _ _ H)).
Defined.

(** ** Order routes inside the site *)

(** A lifted handler runs on the [core] of the site as it runs on a store,
    and touches no other table. *)
Lemma run_lift p catch faults :
  forall n s,
    run_proc (lift p) (reply_of catch) faults n s =
    (reply_of (fst (run_prog p catch faults n (core s))),
     with_core s (snd (run_prog p catch faults n (core s)))).
Proof.
  induction p as [r | R q k IH]; intros n s; cbn [lift run_proc run_prog].
  - destruct s; reflexivity.
  - destruct (faults n); [destruct s; reflexivity|].
    cbn [exec_stmt]. destruct (exec q (core s)) as [v db'] eqn:E.
    rewrite IH. reflexivity.
Qed.

Lemma serve_lift h faults s :
  serve (lift_handler h) faults s =
  (reply_of (fst (run h faults (core s))),
   with_core s (snd (run h faults (core s)))).
Proof. unfold serve, run. cbn [lift_handler attempt rescue]. apply run_lift. Qed.

(** ** The middlewares *)

Lemma split_spaceless w :
  spaceless w = true -> split Ascii.Space w = [w].
Proof.
  induction w as [|a w IH]; intros H; [reflexivity|].
  cbn [spaceless] in H. apply andb_true_iff in H as [Ha Hw].
  cbn [split]. apply negb_true_iff in Ha. rewrite Ha, (IH Hw). reflexivity.
Qed.

Lemma split_word w rest :
  spaceless w = true ->
  split Ascii.Space (w +:+ String Ascii.Space rest) = w :: split Ascii.Space rest.
Proof.
  induction w as [|a w IH]; intros H.
  - reflexivity.
  - cbn [spaceless] in H. apply andb_true_iff in H as [Ha Hw].
    apply negb_true_iff in Ha.
    change (String a w +:+ String Ascii.Space rest)
      with (String a (w +:+ String Ascii.Space rest)).
    cbn [split]. rewrite Ha, (IH Hw). reflexivity.
Qed.

Lemma append_empty (s : string) : s +:+ "" = s.
Proof.
  induction s as [|a s IH]; [reflexivity|].
  change (String a (s +:+ "") = String a s). rewrite IH. reflexivity.
Qed.

(** X1: the token is the second word of the header, whatever the first
    word is and whatever follows the second: a header [scheme token ...]
    gets through exactly when [jwt.verify] accepts [token]. *)
Theorem authenticate_reads_the_second_word verify scheme token
    (more : option string) :
  spaceless scheme = true ->
  spaceless token = true ->
  token <> "" ->
  authenticate verify
    (Some (scheme +:+ " " +:+ token
           +:+ match more with Some rest => " " +:+ rest | None => "" end)) =
  match verify token with
  | Some decoded => Next decoded
  | None => Stop (refuse 401 TokenInvalid)
  end.
Proof.
  intros Hs Ht Hne. unfold authenticate.
  assert (Hsplit :
    split Ascii.Space
      (scheme +:+ " " +:+ token
       +:+ match more with Some rest => " " +:+ rest | None => "" end) !! 1%nat
    = Some token).
  { change (scheme +:+ " " +:+ ?x) with (scheme +:+ String Ascii.Space x).
    rewrite split_word by exact Hs. cbn [lookup list_lookup].
    destruct more as [rest|].
    - change (token +:+ " " +:+ rest) with (token +:+ String Ascii.Space rest).
      rewrite split_word by exact Ht. reflexivity.
    - rewrite append_empty, split_spaceless by exact Ht. reflexivity. }
  rewrite Hsplit.
  destruct scheme; destruct token; try contradiction; reflexivity.
Qed.

Lemma authenticate_reads_the_second_word_witness :
  spaceless "Basic" = true
  /\ spaceless "admin" = true
  /\ "admin" <> ""
  /\ authenticate Sample.verify (Some ("Basic" +:+ " " +:+ "admin" +:+ " " +:+ "x y")) =
     Next {| c_id := 7; c_role := "admin" |}.
Proof.
  assert (H1 : spaceless "Basic" = true) by reflexivity.
  assert (H2 : spaceless "admin" = true) by reflexivity.
  assert (H3 : "admin" <> "") by discriminate.
  refine (conj H1 (conj H2 (conj H3 _))).
  exact (authenticate_reads_the_second_word Sample.verify "Basic" "admin"
           (Some "x y") H1 H2 H3).
Defined.

(** X2: a header of one word, or of one word and a space, never reaches
    [jwt.verify]: the answer is 401, "no token" for the empty header and
    "bad format" otherwise. *)
Theorem authenticate_needs_two_words verify w :
  spaceless w = true ->
  authenticate verify (Some w) =
    Stop (refuse 401 (if bool_decide (w = "") then TokenMissing else TokenFormat))
  /\ authenticate verify (Some (w +:+ " ")) = Stop (refuse 401 TokenFormat).
Proof.
  intros Hw. unfold authenticate. split.
  - rewrite split_spaceless by exact Hw. destruct w; reflexivity.
  - change (w +:+ " ") with (w +:+ String Ascii.Space "").
    rewrite split_word by exact Hw. destruct w; reflexivity.
Qed.

Lemma authenticate_needs_two_words_witness :
  spaceless "Bearer" = true
  /\ authenticate Sample.verify (Some "Bearer") = Stop (refuse 401 TokenFormat)
  /\ authenticate Sample.verify (Some ("Bearer" +:+ " ")) =
     Stop (refuse 401 TokenFormat).
Proof.
  assert (H1 : spaceless "Bearer" = true) by reflexivity.
  refine (conj H1 _).
  exact (authenticate_needs_two_words Sample.verify "Bearer" H1).
Defined.

(** X3: [POST /orders] behind its middlewares.  A verified user whose role
    is neither [admin] nor [comprador] is answered 403 and no statement is
    issued; for the two roles let through, the route is the order handler
    run on the [core] of the site for [req.user.id]. *)
Theorem postOrders_role_gate verify authorization products user faults s :
  authenticate verify authorization = Next user ->
  serve (postOrders verify authorization products) faults s =
  if bool_decide (c_role user = "admin") || bool_decide (c_role user = "comprador")
  then (reply_of (fst (run (placeOrder (c_id user) products) faults (core s))),
        with_core s (snd (run (placeOrder (c_id user) products) faults (core s))))
  else (refuse 403 (RoleRequired "comprador"), s).
Proof.
  intros Ha. unfold postOrders. rewrite Ha. cbn [and_then].
  unfold checkAdminOrRole.
  destruct (bool_decide (c_role user = "admin") || bool_decide (c_role user = "comprador")).
  - cbn [behind]. apply serve_lift.
  - reflexivity.
Qed.

Lemma postOrders_role_gate_witness :
  authenticate Sample.verify (Some "Bearer vendedor") =
    Next {| c_id := 7; c_role := "vendedor" |}
  /\ serve (postOrders Sample.verify (Some "Bearer vendedor")
             (Some [Shop.line 1 3])) no_faults
       (Sample.site_of (Shop.shop 1000 5)) =
     (refuse 403 (RoleRequired "comprador"), Sample.site_of (Shop.shop 1000 5)).
Proof.
  assert (H1 : authenticate Sample.verify (Some "Bearer vendedor") =
               Next {| c_id := 7; c_role := "vendedor" |}) by reflexivity.
  refine (conj H1 _).
  exact (postOrders_role_gate Sample.verify (Some "Bearer vendedor")
           (Some [Shop.line 1 3]) _ no_faults
           (Sample.site_of (Shop.shop 1000 5)) H1).
Defined.

(** ** The seller's and the administrator's product routes *)

Lemma with_core_core s : with_core s (core s) = s.
Proof. destruct s; reflexivity. Qed.

Lemma select_of_seller_stranger db user_id id :
  (forall p, products db !! id = Some p -> p_seller_id p <> user_id) ->
  fst (exec (SelectProductOfSeller id user_id) db) = None.
Proof.
  intros H. cbn [exec fst]. destruct (products db !! id) as [p|] eqn:E;
    [|reflexivity].
  destruct (p_seller_id p =? user_id) eqn:Es; [|reflexivity].
  apply Z.eqb_eq in Es. exfalso. exact (H p eq_refl Es).
Qed.

Lemma editProduct_stranger s user_id id name description price stock file faults :
  (forall p, products (core s) !! id = Some p -> p_seller_id p <> user_id) ->
  faults 0%nat = false ->
  serve (lift_handler
           (editProduct user_id id name description price stock file))
    faults s =
  (reply_of {| status := 403; json := ErrorBody MsgNoPermission |}, s).
Proof.
  intros Hstranger Hf.
  pose proof (select_of_seller_stranger _ _ _ Hstranger) as Hsel.
  cbn [exec fst] in Hsel.
  rewrite serve_lift. unfold run.
  cbn [editProduct try_block catch_block run_prog exec].
  rewrite Hf, Hsel. cbn [fst snd]. rewrite with_core_core. reflexivity.
Qed.



(** X5: an administrator passes the role gate of [PUT /products/:id] and
    is then refused like anyone who is not the seller: 403, nothing
    changed. *)
Theorem putProduct_refuses_admin_who_is_not_the_seller
    verify authorization user s id name description price stock file faults :
  authenticate verify authorization = Next user ->
  c_role user = "admin" ->
  (forall p, products (core s) !! id = Some p -> p_seller_id p <> c_id user) ->
  faults 0%nat = false ->
  serve (putProduct verify authorization id name description price stock file)
    faults s =
  (reply_of {| status := 403; json := ErrorBody MsgNoPermission |}, s).
Proof.
  intros Ha Hrole Hstranger Hf. unfold putProduct. rewrite Ha.
  cbn [and_then]. unfold checkAdminOrRole. rewrite Hrole.
  cbn [bool_decide decide_rel orb behind].
  rewrite bool_decide_eq_true_2 by reflexivity. cbn [orb behind].
  apply editProduct_stranger; assumption.
Qed.

Lemma putProduct_refuses_admin_who_is_not_the_seller_witness :
  authenticate Sample.verify (Some "Bearer admin") =
    Next {| c_id := 7; c_role := "admin" |}
  /\ c_role {| c_id := 7; c_role := "admin" |} = "admin"
  /\ (forall p, products (core (Sample.site_of (Shop.shop 1000 5))) !! 1 = Some p ->
                p_seller_id p <> 7)
  /\ no_faults 0%nat = false
  /\ serve (putProduct Sample.verify (Some "Bearer admin") 1 "B" "" 1 1 None)
       no_faults (Sample.site_of (Shop.shop 1000 5)) =
     (reply_of {| status := 403; json := ErrorBody MsgNoPermission |},
      Sample.site_of (Shop.shop 1000 5)).
Proof.
  assert (H1 : authenticate Sample.verify (Some "Bearer admin") =
               Next {| c_id := 7; c_role := "admin" |}) by reflexivity.
  assert (H2 : c_role {| c_id := 7; c_role := "admin" |} = "admin") by reflexivity.
  assert (H3 : forall p,
             products (core (Sample.site_of (Shop.shop 1000 5))) !! 1 = Some p ->
             p_seller_id p <> 7).
  { intros p Hp. vm_compute in Hp. injection Hp as <-. discriminate. }
  assert (H4 : no_faults 0%nat = false) by reflexivity.
  refine (conj H1 (conj H2 (conj H3 (conj H4 _)))).
  exact (putProduct_refuses_admin_who_is_not_the_seller Sample.verify
           (Some "Bearer admin") _ (Sample.site_of (Shop.shop 1000 5))
           1 "B" "" 1 1 None no_faults H1 H2 H3 H4).
Defined.

(** X6: after the seller edits a product, [GET /products/:id] returns the
    row with the new name, description, price and stock (and the new image
    path when a file came with the request, the old one otherwise), under
    the same id and seller; every other product is as before. *)
Theorem editProduct_then_getProduct
    s user_id id p name description price stock file :
  products (core s) !! id = Some p ->
  p_seller_id p = user_id ->
  exists p' s',
    p' = edit_product name description price stock
           (match file with
            | Some filename => Some ("uploads/" +:+ filename)
            | None => p_imageurl p
            end) p
    /\ serve (lift_handler
                (editProduct user_id id name description price stock file))
         no_faults s =
       (reply_of {| status := 200; json := ProductBody (Some p') |}, s')
    /\ serve (getProduct user_id id) no_faults s' =
       ({| code := 200; payload_of := OneProduct p' |}, s')
    /\ forall j, j <> id -> products (core s') !! j = products (core s) !! j.
Proof.
  intros Hl Hs. eexists. eexists. split; [reflexivity|].
  assert (Hown : (p_seller_id p =? user_id) = true) by (apply Z.eqb_eq; exact Hs).
  split; [|split].
  - rewrite serve_lift. unfold run.
    cbn [editProduct try_block catch_block run_prog exec no_faults].
    rewrite Hl, Hown. cbn [run_prog exec no_faults fst snd].
    rewrite lookup_alter_eq, Hl. reflexivity.
  - unfold serve.
    cbn [getProduct attempt rescue run_proc exec_stmt exec no_faults
         core with_core products with_products].
    rewrite lookup_alter_eq, Hl. cbn [fmap option_fmap option_map].
    cbn [edit_product p_seller_id]. rewrite Hown.
    cbn [run_proc]. f_equal. 
  - intros j Hj. cbn [core with_core products with_products].
    apply lookup_alter_ne. congruence.
Qed.

Lemma editProduct_then_getProduct_witness :
  products (core (Sample.site_of (Shop.shop 1000 5))) !! 1
    = Some (Shop.productA 1000 5)
  /\ p_seller_id (Shop.productA 1000 5) = 9
  /\ exists p' s',
       p' = edit_product "B" "new" 2500 7 (p_imageurl (Shop.productA 1000 5))
              (Shop.productA 1000 5)
       /\ serve (lift_handler (editProduct 9 1 "B" "new" 2500 7 None))
            no_faults (Sample.site_of (Shop.shop 1000 5)) =
          (reply_of {| status := 200; json := ProductBody (Some p') |}, s')
       /\ serve (getProduct 9 1) no_faults s' =
          ({| code := 200; payload_of := OneProduct p' |}, s')
       /\ forall j, j <> 1 ->
            products (core s') !! j
            = products (core (Sample.site_of (Shop.shop 1000 5))) !! j.
Proof.
  assert (H1 : products (core (Sample.site_of (Shop.shop 1000 5))) !! 1
               = Some (Shop.productA 1000 5)) by reflexivity.
  assert (H2 : p_seller_id (Shop.productA 1000 5) = 9) by reflexivity.
  refine (conj H1 (conj H2 _)).
  exact (editProduct_then_getProduct (Sample.site_of (Shop.shop 1000 5))
           9 1 _ "B" "new" 2500 7 None H1 H2).
Defined.

(** What the administrator's removal of a product leaves: always a 200,
    no row of [products] or [order_items] for the id, the other tables as
    they were. *)
Lemma serve_adminDeleteProduct s id :
  serve (adminDeleteProduct id) no_faults s =
  (say 200 ProductRemovedByAdmin,
   {| core :=
        {| products := delete id (products (core s));
           orders := orders (core s);
           order_items := filter (fun r => oi_product_id r <> id)
                            (order_items (core s)) |};
      users := users s; wishlist := wishlist s; reviews := reviews s |}).
Proof. reflexivity. Qed.

(** X7: orders outlive their line items.  After an order was committed
    with a line for product [pid], the administrator's removal of that
    product deletes the line item and keeps the order row with the total
    that counted it. *)
Theorem adminDeleteProduct_keeps_the_order_total
    db user_id items faults o db' it pid s :
  run (placeOrder user_id (Some items)) faults db = (Created o, db') ->
  In it items ->
  product_id it = Some pid ->
  (exists r, In r (order_items db')
             /\ oi_order_id r = o_id o /\ oi_product_id r = pid)
  /\ exists s',
       serve (adminDeleteProduct pid) no_faults (with_core s db') =
       (say 200 ProductRemovedByAdmin, s')
       /\ In o (orders (core s'))
       /\ forall r, In r (order_items (core s')) -> oi_product_id r <> pid.
Proof.
  intros Hrun Hin Hpid.
  apply placeOrder_created in Hrun as (items' & ds & [= <-] & Hs & Ho & ->).
  split.
  - pose proof (line_rows_snapshot_row db (o_id o) items ds
                  (length (order_items db)) Hs) as Hrows.
    apply list_elem_of_In, list_elem_of_lookup in Hin as [i Hi].
    destruct (Forall2_lookup_l _ _ _ _ _ Hrows Hi) as (r & Hr & Hrow).
    destruct Hrow as (Hoid & Hp & _ & _).
    exists r. split; [|split].
    + cbn [committed order_items]. apply in_or_app. right.
      apply list_elem_of_In, list_elem_of_lookup. eauto.
    + exact Hoid.
    + congruence.
  - rewrite serve_adminDeleteProduct. eexists. split; [reflexivity|].
    cbn [core with_core committed orders order_items]. split.
    + apply in_or_app. right. left. reflexivity.
    + intros r Hr. apply list_elem_of_In, list_elem_of_filter in Hr as [Hne _].
      exact Hne.
Qed.

Lemma adminDeleteProduct_keeps_the_order_total_witness :
  run (placeOrder 7 (Some [Shop.line 1 3])) no_faults (Shop.shop 1000 5) =
  (Created (Shop.order1 7 30%float),
   {| products := {[ 1 := Shop.productA 1000 2 ]};
      orders := [Shop.order1 7 30%float];
      order_items := [Shop.row 1 1 3 1000] |})
  /\ In (Shop.line 1 3) [Shop.line 1 3]
  /\ product_id (Shop.line 1 3) = Some 1
  /\ exists s',
       serve (adminDeleteProduct 1) no_faults
         (with_core (Sample.site_of (Shop.shop 1000 5))
            {| products := {[ 1 := Shop.productA 1000 2 ]};
               orders := [Shop.order1 7 30%float];
               order_items := [Shop.row 1 1 3 1000] |}) =
       (say 200 ProductRemovedByAdmin, s')
       /\ In (Shop.order1 7 30%float) (orders (core s'))
       /\ forall r, In r (order_items (core s')) -> oi_product_id r <> 1.
Proof.
  assert (H1 : run (placeOrder 7 (Some [Shop.line 1 3])) no_faults (Shop.shop 1000 5) =
               (Created (Shop.order1 7 30%float),
                {| products := {[ 1 := Shop.productA 1000 2 ]};
                   orders := [Shop.order1 7 30%float];
                   order_items := [Shop.row 1 1 3 1000] |}))
    by (vm_compute; reflexivity).
  assert (H2 : In (Shop.line 1 3) [Shop.line 1 3]) by (left; reflexivity).
  assert (H3 : product_id (Shop.line 1 3) = Some 1) by reflexivity.
  refine (conj H1 (conj H2 (conj H3 _))).
  exact (proj2 (adminDeleteProduct_keeps_the_order_total
                  _ _ _ _ _ _ _ _ (Sample.site_of (Shop.shop 1000 5)) H1 H2 H3)).
Defined.

(** ** Removing a user *)

Lemma run_proc_no_faults_index p catch :
  forall n m s,
    run_proc p catch no_faults n s = run_proc p catch no_faults m s.
Proof.
  induction p as [r | R q k IH]; intros n m s; cbn [run_proc].
  - reflexivity.
  - unfold no_faults at 1 3. destruct (exec_stmt q s) as [[v s']|];
      [apply IH | reflexivity].
Qed.

(** One statement of a run in which nothing throws by accident. *)
Lemma run_proc_call {R} (q : stmt R) k catch n s :
  run_proc (Call q k) catch no_faults n s =
  match exec_stmt q s with
  | Some (v, s') => run_proc (k v) catch no_faults 0 s'
  | None => (catch, s)
  end.
Proof.
  cbn [run_proc]. unfold no_faults at 1.
  destruct (exec_stmt q s) as [[v s']|]; [|reflexivity].
  apply run_proc_no_faults_index.
Qed.

Lemma run_removeProducts rows k catch :
  forall s,
    run_proc (removeProducts rows k) catch no_faults 0 s =
    run_proc k catch no_faults 0 (with_core s (strip (map p_id rows) (core s))).
Proof.
  induction rows as [|p rows IH]; intros s.
  - cbn [removeProducts map strip]. rewrite with_core_core. reflexivity.
  - cbn [removeProducts map strip].
    rewrite run_proc_call. cbn [exec_stmt].
    rewrite run_proc_call. cbn [exec_stmt].
    rewrite IH. destruct s; reflexivity.
Qed.

Lemma strip_orders ids : forall db, orders (strip ids db) = orders db.
Proof.
  induction ids as [|i ids IH]; intros db; [reflexivity|].
  cbn [strip]. rewrite IH. reflexivity.
Qed.

Lemma strip_products ids :
  forall db k,
    products (strip ids db) !! k =
    if decide (k ∈ ids) then None else products db !! k.
Proof.
  induction ids as [|i ids IH]; intros db k; cbn [strip].
  - rewrite decide_False by apply not_elem_of_nil. reflexivity.
  - rewrite IH. cbn [products].
    destruct (decide (k ∈ ids)) as [Hin | Hnin].
    + rewrite decide_True by (right; exact Hin). reflexivity.
    + destruct (decide (k = i)) as [-> | Hne].
      * rewrite decide_True by left. apply lookup_delete_eq.
      * rewrite decide_False by (intros H; apply elem_of_cons in H as [?|?]; 
                                   contradiction).
        apply lookup_delete_ne. congruence.
Qed.

Lemma strip_order_items ids :
  forall db r,
    r ∈ order_items (strip ids db) <->
    r ∈ order_items db /\ oi_product_id r ∉ ids.
Proof.
  induction ids as [|i ids IH]; intros db r; cbn [strip].
  - split; [intros H; split; [exact H | apply not_elem_of_nil] | intros [H _]; exact H].
  - rewrite IH. cbn [order_items]. rewrite list_elem_of_filter, not_elem_of_cons.
    tauto.
Qed.

Lemma elem_of_scan db p :
  p ∈ scan db <-> exists k, products db !! k = Some p.
Proof.
  unfold scan. rewrite list_elem_of_fmap. split.
  - intros ([k p'] & -> & Hin). apply elem_of_map_to_list in Hin. eauto.
  - intros [k Hk]. exists (k, p). split; [reflexivity|].
    apply elem_of_map_to_list. exact Hk.
Qed.

(** The ids of the rows [SELECT * FROM products WHERE seller_id = $1]
    returns are the keys of the seller's products. *)
Lemma ids_of_seller db seller_id k :
  keyed db ->
  k ∈ map p_id (filter (fun p => p_seller_id p = seller_id) (scan db)) <->
  sold_by db seller_id k.
Proof.
  intros Hkeyed. change (map p_id ?l) with (p_id <$> l).
  rewrite list_elem_of_fmap. split.
  - intros (p & -> & Hin). apply list_elem_of_filter in Hin as [Hs Hin].
    apply elem_of_scan in Hin as [k Hk].
    exists p. rewrite (Hkeyed _ _ Hk). split; assumption.
  - intros (p & Hk & Hs). exists p. split; [symmetry; eapply Hkeyed; exact Hk|].
    apply list_elem_of_filter. split; [exact Hs|].
    apply elem_of_scan. eauto.
Qed.

(** [DELETE /users/:id] on an existing user, no statement failing. *)
Lemma serve_deleteUser s id u :
  keyed (core s) ->
  In u (users s) ->
  u_id u = id ->
  exists s',
    serve (deleteUser id) no_faults s = (say 200 UserRemoved, s')
    /\ users s' = filter (fun u => u_id u <> id) (users s)
    /\ (forall k, sold_by (core s) id k -> products (core s') !! k = None)
    /\ (forall k, ~ sold_by (core s) id k ->
                  products (core s') !! k = products (core s) !! k)
    /\ (forall r, In r (order_items (core s')) <->
                  In r (order_items (core s))
                  /\ ~ sold_by (core s) id (oi_product_id r)).
Proof.
  intros Hkeyed Hin Hid.
  assert (Hrows : exists u0 us, filter (fun u => u_id u = id) (users s) = u0 :: us).
  { destruct (filter (fun u => u_id u = id) (users s)) as [|u0 us] eqn:E; [|eauto].
    exfalso. apply list_elem_of_In in Hin.
    eapply (filter_nil_not_elem_of _ _ u E); [exact Hid | exact Hin]. }
  destruct Hrows as (u0 & us & Hrows).
  unfold serve. cbn [deleteUser attempt rescue].
  rewrite run_proc_call. cbn [exec_stmt]. rewrite Hrows.
  rewrite run_proc_call. cbn [exec_stmt].
  rewrite run_removeProducts, run_proc_call. cbn [exec_stmt run_proc].
  eexists. split; [reflexivity|].
  cbn [users with_users with_core core wishlist reviews].
  split; [reflexivity|].
  split; [|split].
  - intros k Hk. rewrite strip_products.
    rewrite decide_True by (apply ids_of_seller; assumption). reflexivity.
  - intros k Hk. rewrite strip_products.
    rewrite decide_False
      by (intros H; apply Hk; apply (ids_of_seller _ _ _ Hkeyed); exact H).
    reflexivity.
  - intros r. rewrite <- !list_elem_of_In, strip_order_items.
    rewrite (ids_of_seller _ _ _ Hkeyed). reflexivity.
Qed.


(** X8: [DELETE /users/:id] on an existing user, no statement failing,
    answers 200 and removes the user's row, every product the user sells
    and every line item that names such a product; the products of other
    sellers are as before. *)
Theorem deleteUser_removes_the_sellers_products s id u :
  keyed (core s) ->
  In u (users s) ->
  u_id u = id ->
  exists s',
    serve (deleteUser id) no_faults s = (say 200 UserRemoved, s')
    /\ (forall v, In v (users s') <-> In v (users s) /\ u_id v <> id)
    /\ (forall k, sold_by (core s) id k -> products (core s') !! k = None)
    /\ (forall k, ~ sold_by (core s) id k ->
                  products (core s') !! k = products (core s) !! k)
    /\ (forall r, In r (order_items (core s')) ->
                  In r (order_items (core s))
                  /\ ~ sold_by (core s) id (oi_product_id r)).
Proof.
  intros Hkeyed Hin Hid.
  destruct (serve_deleteUser s id u Hkeyed Hin Hid)
    as (s' & Hrun & Hu & Hgone & Hkept & Hitems).
  exists s'. split; [exact Hrun|]. split; [|split; [exact Hgone|split; [exact Hkept|]]].
  - intros v. rewrite Hu, <- !list_elem_of_In, list_elem_of_filter. tauto.
  - intros r Hr. apply Hitems. exact Hr.
Qed.

Lemma deleteUser_removes_the_sellers_products_witness :
  keyed (core (Sample.with_seller
                 {| products := {[ 1 := Shop.productA 1000 2 ]};
                    orders := [Shop.order1 7 30%float];
                    order_items := [Shop.row 1 1 3 1000] |}))
  /\ In Sample.seller
       (users (Sample.with_seller
                 {| products := {[ 1 := Shop.productA 1000 2 ]};
                    orders := [Shop.order1 7 30%float];
                    order_items := [Shop.row 1 1 3 1000] |}))
  /\ u_id Sample.seller = 9
  /\ serve (deleteUser 9) no_faults
       (Sample.with_seller
          {| products := {[ 1 := Shop.productA 1000 2 ]};
             orders := [Shop.order1 7 30%float];
             order_items := [Shop.row 1 1 3 1000] |}) =
     (say 200 UserRemoved,
      Sample.site_of
        {| products := ∅; orders := [Shop.order1 7 30%float];
           order_items := [] |}).
Proof.
  assert (H1 : keyed (core (Sample.with_seller
                 {| products := {[ 1 := Shop.productA 1000 2 ]};
                    orders := [Shop.order1 7 30%float];
                    order_items := [Shop.row 1 1 3 1000] |}))).
  { intros k p Hp. cbn [core Sample.with_seller products] in Hp.
    apply lookup_singleton_Some in Hp as [<- <-]. reflexivity. }
  assert (H2 : In Sample.seller
       (users (Sample.with_seller
                 {| products := {[ 1 := Shop.productA 1000 2 ]};
                    orders := [Shop.order1 7 30%float];
                    order_items := [Shop.row 1 1 3 1000] |})))
    by (left; reflexivity).
  assert (H3 : u_id Sample.seller = 9) by reflexivity.
  refine (conj H1 (conj H2 (conj H3 _))).
  destruct (deleteUser_removes_the_sellers_products _ 9 _ H1 H2 H3)
    as (s' & Hrun & _).
  rewrite Hrun. f_equal.
  assert (Hv : serve (deleteUser 9) no_faults
       (Sample.with_seller
          {| products := {[ 1 := Shop.productA 1000 2 ]};
             orders := [Shop.order1 7 30%float];
             order_items := [Shop.row 1 1 3 1000] |}) =
     (say 200 UserRemoved,
      Sample.site_of
        {| products := ∅; orders := [Shop.order1 7 30%float];
           order_items := [] |})) by (vm_compute; reflexivity).
  rewrite Hv in Hrun. injection Hrun as <-. reflexivity.
Defined.

(** ** The wishlist *)

Lemma filter_all {A} (P : A -> Prop) `{forall x, Decision (P x)} (l : list A) :
  (forall x, x ∈ l -> P x) -> filter P l = l.
Proof.
  induction l as [|a l IH]; intros Hall; [reflexivity|].
  rewrite filter_cons, decide_True by (apply Hall; left).
  f_equal. apply IH. intros x Hx. apply Hall. right. exact Hx.
Qed.

Lemma filter_none {A} (P : A -> Prop) `{forall x, Decision (P x)} (l : list A) :
  (forall x, x ∈ l -> ~ P x) -> filter P l = [].
Proof.
  induction l as [|a l IH]; intros Hall; [reflexivity|].
  rewrite filter_cons, decide_False by (apply Hall; left).
  apply IH. intros x Hx. apply Hall. right. exact Hx.
Qed.

Lemma not_wished s user_id pid :
  (user_id, pid) ∉ wished s ->
  forall w, w ∈ wishlist s -> ~ (w_user_id w = user_id /\ w_product_id w = pid).
Proof.
  intros Hnot w Hw [Hu Hp]. apply Hnot. unfold wished.
  change (map ?f ?l) with (f <$> l). apply list_elem_of_fmap.
  exists w. split; [rewrite Hu, Hp; reflexivity | exact Hw].
Qed.

Lemma select_wish_empty s user_id pid :
  filter (fun w => w_user_id w = user_id /\ w_product_id w = pid) (wishlist s) = [] ->
  (user_id, pid) ∉ wished s.
Proof.
  intros Hnil Hin. unfold wished in Hin.
  change (map ?f ?l) with (f <$> l) in Hin.
  apply list_elem_of_fmap in Hin as (w & Heq & Hw).
  injection Heq as Hu Hp.
  eapply (filter_nil_not_elem_of _ _ w Hnil); [split; congruence | exact Hw].
Qed.

(** The site after the INSERT of a wish. *)
Lemma wished_insert s user_id pid :
  wished (with_wishlist s
            (wishlist s ++ [{| w_id := next_id (wishlist s);
                               w_user_id := user_id; w_product_id := pid |}]))
  = wished s ++ [(user_id, pid)].
Proof. unfold wished. cbn [wishlist with_wishlist]. rewrite map_app. reflexivity. Qed.

(** X9: requests served one after the other never put a (user, product)
    pair into the wishlist twice: whatever [POST /wishlist] is asked and
    whichever of its statements throws, a wishlist without duplicates stays
    without duplicates. *)
Theorem addWish_keeps_wishlist_without_duplicates s user_id pid faults :
  NoDup (wished s) ->
  NoDup (wished (snd (serve (addWish user_id pid) faults s))).
Proof.
  intros Hnd. unfold serve. cbn [addWish attempt rescue run_proc exec_stmt exec].
  destruct (faults 0%nat); [exact Hnd|].
  rewrite with_core_core.
  destruct (products (core s) !! pid) as [p|]; [|exact Hnd].
  cbn [run_proc exec_stmt].
  destruct (faults 1%nat); [exact Hnd|].
  destruct (filter _ (wishlist s)) as [|w ws] eqn:Hsel; [|exact Hnd].
  cbn [run_proc exec_stmt].
  destruct (faults 2%nat); [exact Hnd|].
  cbn [run_proc snd]. rewrite wished_insert.
  apply NoDup_app. split; [exact Hnd|]. split.
  - intros x Hx Hin. apply list_elem_of_singleton in Hin as ->.
    exact (select_wish_empty _ _ _ Hsel Hx).
  - apply NoDup_singleton.
Qed.

Lemma addWish_keeps_wishlist_without_duplicates_witness :
  NoDup (wished (Sample.site_of (Shop.shop 1000 5)))
  /\ NoDup (wished (snd (serve (addWish 7 1) no_faults
                           (Sample.site_of (Shop.shop 1000 5))))).
Proof.
  assert (H1 : NoDup (wished (Sample.site_of (Shop.shop 1000 5))))
    by apply NoDup_nil_2.
  refine (conj H1 _).
  exact (addWish_keeps_wishlist_without_duplicates _ 7 1 no_faults H1).
Defined.

Lemma serve_addWish_new s user_id pid p :
  products (core s) !! pid = Some p ->
  (user_id, pid) ∉ wished s ->
  serve (addWish user_id pid) no_faults s =
  (say 200 WishAdded,
   with_wishlist s
     (wishlist s ++ [{| w_id := next_id (wishlist s);
                        w_user_id := user_id; w_product_id := pid |}])).
Proof.
  intros Hl Hnot. unfold serve. cbn [addWish attempt rescue].
  rewrite run_proc_call. cbn [exec_stmt exec]. rewrite with_core_core, Hl.
  rewrite run_proc_call. cbn [exec_stmt].
  rewrite (filter_none _ _ (not_wished _ _ _ Hnot)).
  rewrite run_proc_call. cbn [exec_stmt run_proc]. reflexivity.
Qed.

(** X10: adding a product to the wishlist and removing it again gives the
    site back as it was, both requests being answered 200. *)
Theorem addWish_then_removeWish s user_id pid p :
  products (core s) !! pid = Some p ->
  (user_id, pid) ∉ wished s ->
  exists s1,
    serve (addWish user_id pid) no_faults s = (say 200 WishAdded, s1)
    /\ ((user_id, pid) ∈ wished s1)
    /\ serve (removeWish user_id pid) no_faults s1 = (say 200 WishRemoved, s).
Proof.
  intros Hl Hnot. eexists. split; [apply (serve_addWish_new _ _ _ _ Hl Hnot)|].
  split.
  - rewrite wished_insert. apply elem_of_app. right. left.
  - unfold serve. cbn [removeWish attempt rescue].
    rewrite run_proc_call. cbn [exec_stmt wishlist with_wishlist].
    rewrite !filter_app.
    rewrite (filter_none _ _ (not_wished _ _ _ Hnot)).
    rewrite (filter_all _ (wishlist s)) by (apply not_wished; exact Hnot).
    rewrite !filter_cons, !filter_nil. cbn [w_user_id w_product_id].
    rewrite decide_True by (split; reflexivity).
    rewrite decide_False by (intros H; apply H; split; reflexivity).
    cbn [app run_proc]. rewrite app_nil_r. destruct s; reflexivity.
Qed.

Lemma addWish_then_removeWish_witness :
  products (core (Sample.site_of (Shop.shop 1000 5))) !! 1
    = Some (Shop.productA 1000 5)
  /\ ((7, 1) ∉ wished (Sample.site_of (Shop.shop 1000 5)))
  /\ exists s1,
       serve (addWish 7 1) no_faults (Sample.site_of (Shop.shop 1000 5)) =
       (say 200 WishAdded, s1)
       /\ ((7, 1) ∈ wished s1)
       /\ serve (removeWish 7 1) no_faults s1 =
          (say 200 WishRemoved, Sample.site_of (Shop.shop 1000 5)).
Proof.
  assert (H1 : products (core (Sample.site_of (Shop.shop 1000 5))) !! 1
               = Some (Shop.productA 1000 5)) by reflexivity.
  assert (H2 : (7, 1) ∉ wished (Sample.site_of (Shop.shop 1000 5)))
    by apply not_elem_of_nil.
  refine (conj H1 (conj H2 _)).
  exact (addWish_then_removeWish _ 7 1 _ H1 H2).
Defined.

(** X11: adding a product that is already on the user's wishlist is
    refused with the site as it was: 400 when the product still exists,
    and 404 when it was deleted in the meantime (the product is looked up
    before the wishlist).  Removing a product that is not on the wishlist
    is refused with 404, the site as it was. *)
Theorem wishlist_refuses_repeated_add_and_absent_remove s user_id pid :
  ((user_id, pid) ∈ wished s ->
   serve (addWish user_id pid) no_faults s =
   (match products (core s) !! pid with
    | Some _ => refuse 400 AlreadyWished
    | None => refuse 404 ProductNotFound
    end, s))
  /\ ((user_id, pid) ∉ wished s ->
      serve (removeWish user_id pid) no_faults s = (refuse 404 NotWished, s)).
Proof.
  split.
  - intros Hin. unfold serve. cbn [addWish attempt rescue].
    rewrite run_proc_call. cbn [exec_stmt exec]. rewrite with_core_core.
    destruct (products (core s) !! pid) as [p|]; [|reflexivity].
    rewrite run_proc_call. cbn [exec_stmt].
    destruct (filter _ (wishlist s)) as [|w ws] eqn:Hsel; [|reflexivity].
    exfalso. exact (select_wish_empty _ _ _ Hsel Hin).
  - intros Hnot. unfold serve. cbn [removeWish attempt rescue].
    rewrite run_proc_call. cbn [exec_stmt].
    rewrite (filter_none _ _ (not_wished _ _ _ Hnot)).
    rewrite (filter_all _ (wishlist s)) by (apply not_wished; exact Hnot).
    cbn [run_proc]. destruct s; reflexivity.
Qed.

(** User 7 has product 1 on the wishlist: adding it again is refused with
    400 while the product exists and with 404 once it is gone; with an
    empty wishlist, removing it is refused with 404. *)
Lemma wishlist_refuses_repeated_add_and_absent_remove_witness :
  ((7, 1) ∈ wished (Sample.wishing (Shop.shop 1000 5)))
  /\ serve (addWish 7 1) no_faults (Sample.wishing (Shop.shop 1000 5)) =
     (refuse 400 AlreadyWished, Sample.wishing (Shop.shop 1000 5))
  /\ ((7, 1) ∈ wished (Sample.wishing Shop.empty_shop))
  /\ serve (addWish 7 1) no_faults (Sample.wishing Shop.empty_shop) =
     (refuse 404 ProductNotFound, Sample.wishing Shop.empty_shop)
  /\ ((7, 1) ∉ wished (Sample.site_of (Shop.shop 1000 5)))
  /\ serve (removeWish 7 1) no_faults (Sample.site_of (Shop.shop 1000 5)) =
     (refuse 404 NotWished, Sample.site_of (Shop.shop 1000 5)).
Proof.
  assert (H1 : (7, 1) ∈ wished (Sample.wishing (Shop.shop 1000 5)))
    by (left).
  assert (H2 : (7, 1) ∈ wished (Sample.wishing Shop.empty_shop))
    by (left).
  assert (H3 : (7, 1) ∉ wished (Sample.site_of (Shop.shop 1000 5)))
    by apply not_elem_of_nil.
  refine (conj H1 (conj _ (conj H2 (conj _ (conj H3 _))))).
  - exact (proj1 (wishlist_refuses_repeated_add_and_absent_remove
                    (Sample.wishing (Shop.shop 1000 5)) 7 1) H1).
  - exact (proj1 (wishlist_refuses_repeated_add_and_absent_remove
                    (Sample.wishing Shop.empty_shop) 7 1) H2).
  - exact (proj2 (wishlist_refuses_repeated_add_and_absent_remove
                    (Sample.site_of (Shop.shop 1000 5)) 7 1) H3).
Defined.

(** X12: two [POST /wishlist] requests of the same user for the same
    product, in flight together.  When both have read the wishlist before
    either has inserted, both are answered 200 and the pair is in the
    wishlist twice. *)
Theorem addWish_twice_in_flight_duplicates s user_id pid p :
  products (core s) !! pid = Some p ->
  (user_id, pid) ∉ wished s ->
  exists s',
    serve_both [true; true; false; false; true; false]
      (addWish user_id pid) (addWish user_id pid) s =
    (say 200 WishAdded, say 200 WishAdded, s')
    /\ wished s' = wished s ++ [(user_id, pid); (user_id, pid)]
    /\ ~ NoDup (wished s').
Proof.
  intros Hl Hnot.
  assert (Hsel : filter (fun w => w_user_id w = user_id /\ w_product_id w = pid)
                   (wishlist s) = [])
    by (apply filter_none, not_wished; exact Hnot).
  unfold serve_both. cbn [addWish attempt rescue race exec_stmt exec].
  rewrite with_core_core, Hl. cbn [race exec_stmt]. rewrite Hsel.
  cbn [race exec_stmt exec]. rewrite with_core_core, Hl.
  cbn [race exec_stmt]. rewrite Hsel.
  cbn [race exec_stmt run_proc wishlist with_wishlist].
  eexists. split; [reflexivity|].
  assert (Hw : forall s0 : site,
             wished s0 = map (fun w => (w_user_id w, w_product_id w)) (wishlist s0))
    by reflexivity.
  split.
  - rewrite Hw. cbn [wishlist with_wishlist]. rewrite <- app_assoc, map_app.
    reflexivity.
  - rewrite Hw. cbn [wishlist with_wishlist]. rewrite <- app_assoc, map_app.
    cbn [map app w_user_id w_product_id].
    intros Hnd. apply NoDup_app in Hnd as (_ & _ & Hnd).
    apply NoDup_cons in Hnd as [Hnd _]. apply Hnd. left.
Qed.

Lemma addWish_twice_in_flight_duplicates_witness :
  products (core (Sample.site_of (Shop.shop 1000 5))) !! 1
    = Some (Shop.productA 1000 5)
  /\ ((7, 1) ∉ wished (Sample.site_of (Shop.shop 1000 5)))
  /\ exists s',
       serve_both [true; true; false; false; true; false]
         (addWish 7 1) (addWish 7 1) (Sample.site_of (Shop.shop 1000 5)) =
       (say 200 WishAdded, say 200 WishAdded, s')
       /\ wished s' = wished (Sample.site_of (Shop.shop 1000 5))
                        ++ [(7, 1); (7, 1)]
       /\ ~ NoDup (wished s').
Proof.
  assert (H1 : products (core (Sample.site_of (Shop.shop 1000 5))) !! 1
               = Some (Shop.productA 1000 5)) by reflexivity.
  assert (H2 : (7, 1) ∉ wished (Sample.site_of (Shop.shop 1000 5)))
    by apply not_elem_of_nil.
  refine (conj H1 (conj H2 _)).
  exact (addWish_twice_in_flight_duplicates _ 7 1 _ H1 H2).
Defined.

(** X13: once a product is on the wishlist, [GET /wishlist] of that user
    lists it: the products listed after the addition are those listed
    before and the product added. *)
Theorem listWishlist_shows_what_was_added s user_id pid p :
  products (core s) !! pid = Some p ->
  (user_id, pid) ∉ wished s ->
  exists s1 rows rows1,
    serve (addWish user_id pid) no_faults s = (say 200 WishAdded, s1)
    /\ serve (listWishlist user_id) no_faults s =
       ({| code := 200; payload_of := Products rows |}, s)
    /\ serve (listWishlist user_id) no_faults s1 =
       ({| code := 200; payload_of := Products rows1 |}, s1)
    /\ forall q, In q rows1 <-> In q rows \/ q = p.
Proof.
  intros Hl Hnot. eexists. eexists. eexists.
  split; [apply (serve_addWish_new _ _ _ _ Hl Hnot)|]. split; [|split].
  - unfold serve. cbn [listWishlist attempt rescue].
    rewrite run_proc_call. cbn [exec_stmt run_proc]. reflexivity.
  - unfold serve. cbn [listWishlist attempt rescue].
    rewrite run_proc_call. cbn [exec_stmt run_proc wishlist with_wishlist core].
    rewrite filter_app, omap_app.
    rewrite filter_cons, filter_nil. cbn [w_user_id].
    rewrite decide_True by reflexivity.
    cbn [omap list_omap w_product_id]. rewrite Hl. reflexivity.
  - intros q. rewrite in_app_iff. cbn [In]. intuition congruence.
Qed.

Lemma listWishlist_shows_what_was_added_witness :
  products (core (Sample.site_of (Shop.shop 1000 5))) !! 1
    = Some (Shop.productA 1000 5)
  /\ ((7, 1) ∉ wished (Sample.site_of (Shop.shop 1000 5)))
  /\ exists s1 rows rows1,
       serve (addWish 7 1) no_faults (Sample.site_of (Shop.shop 1000 5)) =
       (say 200 WishAdded, s1)
       /\ serve (listWishlist 7) no_faults (Sample.site_of (Shop.shop 1000 5)) =
          ({| code := 200; payload_of := Products rows |},
           Sample.site_of (Shop.shop 1000 5))
       /\ serve (listWishlist 7) no_faults s1 =
          ({| code := 200; payload_of := Products rows1 |}, s1)
       /\ forall q, In q rows1 <-> In q rows \/ q = Shop.productA 1000 5.
Proof.
  assert (H1 : products (core (Sample.site_of (Shop.shop 1000 5))) !! 1
               = Some (Shop.productA 1000 5)) by reflexivity.
  assert (H2 : (7, 1) ∉ wished (Sample.site_of (Shop.shop 1000 5)))
    by apply not_elem_of_nil.
  refine (conj H1 (conj H2 _)).
  exact (listWishlist_shows_what_was_added _ 7 1 _ H1 H2).
Defined.

(** ** Reviews *)

(** X14: [POST /products/:id/reviews] checks that the product exists and
    nothing else: any rating is stored as given, and a user may review the
    same product again; the review of a product that does not exist is
    answered 404 and not stored. *)
Theorem addReview_checks_only_the_product s user_id id rating comment :
  (forall p, products (core s) !! id = Some p ->
     exists s1 s2,
       serve (addReview user_id id rating comment) no_faults s =
       (say 200 ReviewAdded, s1)
       /\ serve (addReview user_id id rating comment) no_faults s1 =
          (say 200 ReviewAdded, s2)
       /\ map (fun r => (r_product_id r, r_user_id r, r_rating r, r_comment r))
            (reviews s2) =
          map (fun r => (r_product_id r, r_user_id r, r_rating r, r_comment r))
            (reviews s)
          ++ [(id, user_id, rating, comment); (id, user_id, rating, comment)])
  /\ (products (core s) !! id = None ->
      serve (addReview user_id id rating comment) no_faults s =
      (refuse 404 ProductNotFound, s)).
Proof.
  split.
  - intros p Hl. eexists. eexists. split; [|split].
    + unfold serve. cbn [addReview attempt rescue].
      rewrite run_proc_call. cbn [exec_stmt exec]. rewrite with_core_core, Hl.
      rewrite run_proc_call. cbn [exec_stmt run_proc]. reflexivity.
    + unfold serve. cbn [addReview attempt rescue].
      rewrite run_proc_call. cbn [exec_stmt exec core with_reviews].
      rewrite Hl. rewrite run_proc_call. cbn [exec_stmt run_proc]. reflexivity.
    + cbn [reviews with_reviews with_core core]. rewrite <- app_assoc, map_app.
      reflexivity.
  - intros Hl. unfold serve. cbn [addReview attempt rescue].
    rewrite run_proc_call. cbn [exec_stmt exec]. rewrite with_core_core, Hl.
    reflexivity.
Qed.

Lemma addReview_checks_only_the_product_witness :
  products (core (Sample.site_of (Shop.shop 1000 5))) !! 1
    = Some (Shop.productA 1000 5)
  /\ exists s1 s2,
       serve (addReview 7 1 (-3) None) no_faults
         (Sample.site_of (Shop.shop 1000 5)) = (say 200 ReviewAdded, s1)
       /\ serve (addReview 7 1 (-3) None) no_faults s1 = (say 200 ReviewAdded, s2)
       /\ map (fun r => (r_product_id r, r_user_id r, r_rating r, r_comment r))
            (reviews s2) =
          map (fun r => (r_product_id r, r_user_id r, r_rating r, r_comment r))
            (reviews (Sample.site_of (Shop.shop 1000 5)))
          ++ [(1, 7, -3, None); (1, 7, -3, None)].
Proof.
  assert (H1 : products (core (Sample.site_of (Shop.shop 1000 5))) !! 1
               = Some (Shop.productA 1000 5)) by reflexivity.
  refine (conj H1 _).
  exact (proj1 (addReview_checks_only_the_product
                  (Sample.site_of (Shop.shop 1000 5)) 7 1 (-3) None) _ H1).
Defined.

(** ** Registration and login *)

(** X15: anyone can register as an administrator.  [POST /register]
    stores the role it is given; after registering with role [admin] under
    an email no user has, logging in with the same password yields a token
    which, sent as [Bearer <token>], passes [authenticate] and
    [checkAdminOnly] (the libraries assumed to verify what they signed and
    to accept the password they hashed). *)
Theorem self_registered_admin_passes_checkAdminOnly
    verify sign hash compare s username email pw salt :
  (forall u, In u (users s) -> u_email u <> email) ->
  compare pw (hash salt pw) = true ->
  verify (sign {| c_id := next_id (users s); c_role := "admin" |}) =
    Some {| c_id := next_id (users s); c_role := "admin" |} ->
  spaceless (sign {| c_id := next_id (users s); c_role := "admin" |}) = true ->
  sign {| c_id := next_id (users s); c_role := "admin" |} <> "" ->
  exists s1 token,
    serve (register hash username email (Some pw) (Some "admin") salt)
      no_faults s =
    ({| code := 201;
        payload_of := Registered (next_id (users s)) username email "admin" |}, s1)
    /\ serve (login sign compare email (Some pw)) no_faults s1 =
       ({| code := 200;
           payload_of := LoggedIn token (next_id (users s)) username "admin" |}, s1)
    /\ and_then (authenticate verify (Some ("Bearer" +:+ " " +:+ token)))
         checkAdminOnly =
       Next {| c_id := next_id (users s); c_role := "admin" |}.
Proof.
  intros Hfresh Hcmp Hver Hsp Hne.
  eexists. eexists. split; [|split].
  - unfold serve. cbn [register attempt rescue].
    rewrite run_proc_call. cbn [exec_stmt run_proc new_user string_or
                                 u_id u_username u_email u_role].
    reflexivity.
  - unfold serve. cbn [login attempt rescue].
    rewrite run_proc_call. cbn [exec_stmt users with_users].
    rewrite filter_app, filter_cons, filter_nil.
    rewrite filter_none
      by (intros u Hu; apply Hfresh, list_elem_of_In; exact Hu).
    cbn [new_user u_email]. rewrite decide_True by reflexivity.
    unfold new_user.
    cbn [app run_proc u_password u_id u_username u_role]. rewrite Hcmp.
    reflexivity.
  - cbn [u_id u_role].
    assert (Hauth :
      authenticate verify
        (Some ("Bearer" +:+ " " +:+
               sign {| c_id := next_id (users s); c_role := "admin" |})) =
      Next {| c_id := next_id (users s); c_role := "admin" |}).
    { unfold authenticate.
      change ("Bearer" +:+ " " +:+ ?t) with ("Bearer" +:+ String Ascii.Space t).
      rewrite split_word by reflexivity.
      rewrite split_spaceless by exact Hsp. cbn [lookup list_lookup].
      rewrite Hver.
      destruct (sign {| c_id := next_id (users s); c_role := "admin" |});
        [contradiction | reflexivity]. }
    rewrite Hauth. reflexivity.
Qed.

Lemma self_registered_admin_passes_checkAdminOnly_witness :
  (forall u, In u (users (Sample.site_of (Shop.shop 1000 5))) ->
             u_email u <> "eve@shop")
  /\ Sample.compare "pw" (Sample.hash "s" "pw") = true
  /\ exists s1 token,
       serve (register Sample.hash "eve" "eve@shop" (Some "pw") (Some "admin") "s")
         no_faults (Sample.site_of (Shop.shop 1000 5)) =
       ({| code := 201; payload_of := Registered 1 "eve" "eve@shop" "admin" |}, s1)
       /\ serve (login Sample.sign Sample.compare "eve@shop" (Some "pw"))
            no_faults s1 =
          ({| code := 200; payload_of := LoggedIn token 1 "eve" "admin" |}, s1)
       /\ and_then (authenticate (Sample.verify_as 1)
                      (Some ("Bearer" +:+ " " +:+ token)))
            checkAdminOnly =
          Next {| c_id := 1; c_role := "admin" |}.
Proof.
  assert (H1 : forall u, In u (users (Sample.site_of (Shop.shop 1000 5))) ->
                         u_email u <> "eve@shop") by (intros u []).
  assert (H2 : Sample.compare "pw" (Sample.hash "s" "pw") = true) by reflexivity.
  refine (conj H1 (conj H2 _)).
  refine (self_registered_admin_passes_checkAdminOnly
            (Sample.verify_as 1) Sample.sign Sample.hash Sample.compare
            (Sample.site_of (Shop.shop 1000 5)) "eve" "eve@shop" "pw" "s"
            H1 H2 _ _ _).
  - reflexivity.
  - reflexivity.
  - discriminate.
Defined.

(** X16: [POST /login] answers 200 only for the email of a stored user
    and a password that [bcrypt.compare] accepts against that user's hash;
    the token then signs that user's id and role, and nothing is
    written. *)
Theorem login_succeeds_only_with_a_matching_password
    sign compare s email password faults token id username role s' :
  serve (login sign compare email password) faults s =
    ({| code := 200; payload_of := LoggedIn token id username role |}, s') ->
  s' = s
  /\ exists u pw,
       In u (users s) /\ u_email u = email
       /\ password = Some pw /\ compare pw (u_password u) = true
       /\ token = sign {| c_id := u_id u; c_role := u_role u |}
       /\ id = u_id u /\ username = u_username u /\ role = u_role u.
Proof.
  unfold serve. cbn [login attempt rescue run_proc exec_stmt].
  destruct (faults 0%nat); [discriminate|].
  destruct (filter (fun u => u_email u = email) (users s)) as [|u us] eqn:Hsel;
    [discriminate|].
  destruct password as [pw|]; [|discriminate].
  destruct (compare pw (u_password u)) eqn:Hcmp; [|discriminate].
  cbn [run_proc]. intros [= <- <- <- <- <-].
  split; [reflexivity|]. exists u, pw.
  assert (Hu : u ∈ filter (fun u => u_email u = email) (users s))
    by (rewrite Hsel; left).
  apply list_elem_of_filter in Hu as [He Hu].
  repeat split; try assumption. apply list_elem_of_In. exact Hu.
Qed.

Lemma login_succeeds_only_with_a_matching_password_witness :
  serve (login Sample.sign Sample.compare "ana@shop" (Some ""))
    no_faults
    {| core := Shop.shop 1000 5;
       users := [{| u_id := 9; u_username := "ana"; u_email := "ana@shop";
                    u_password := "s"; u_role := "vendedor" |}];
       wishlist := []; reviews := [] |} =
  ({| code := 200; payload_of := LoggedIn "vendedor" 9 "ana" "vendedor" |},
   {| core := Shop.shop 1000 5;
      users := [{| u_id := 9; u_username := "ana"; u_email := "ana@shop";
                   u_password := "s"; u_role := "vendedor" |}];
      wishlist := []; reviews := [] |})
  /\ exists u pw,
       In u [{| u_id := 9; u_username := "ana"; u_email := "ana@shop";
                u_password := "s"; u_role := "vendedor" |}]
       /\ u_email u = "ana@shop"
       /\ Some "" = Some pw /\ Sample.compare pw (u_password u) = true
       /\ "vendedor" = Sample.sign {| c_id := u_id u; c_role := u_role u |}
       /\ 9 = u_id u /\ "ana" = u_username u /\ "vendedor" = u_role u.
Proof.
  assert (H : serve (login Sample.sign Sample.compare "ana@shop" (Some ""))
    no_faults
    {| core := Shop.shop 1000 5;
       users := [{| u_id := 9; u_username := "ana"; u_email := "ana@shop";
                    u_password := "s"; u_role := "vendedor" |}];
       wishlist := []; reviews := [] |} =
  ({| code := 200; payload_of := LoggedIn "vendedor" 9 "ana" "vendedor" |},
   {| core := Shop.shop 1000 5;
      users := [{| u_id := 9; u_username := "ana"; u_email := "ana@shop";
                   u_password := "s"; u_role := "vendedor" |}];
      wishlist := []; reviews := [] |})) by reflexivity.
  refine (conj H _).
  exact (proj2 (login_succeeds_only_with_a_matching_password _ _ _ _ _ _ _ _ _ _ _ H)).
Defined.

(** ** The paginated product list *)

Lemma ceil_div_bounds a b :
  0 < b -> b * (ceil_div a b - 1) < a <= b * ceil_div a b.
Proof.
  intros Hb. unfold ceil_div.
  pose proof (Z.mul_div_le (- a) b Hb).
  pose proof (Z.mul_succ_div_gt (- a) b Hb).
  nia.
Qed.

(** The answer of the list when the database accepts both queries. *)
Lemma serve_listProducts ilike page limit search priceFilter s all :
  found ilike search priceFilter s = Some all ->
  0 <= number_or limit 12 ->
  0 <= (number_or page 1 - 1) * number_or limit 12 ->
  serve (listProducts ilike page limit search priceFilter) no_faults s =
  ({| code := 200;
      payload_of :=
        Page (take (Z.to_nat (number_or limit 12))
                (drop (Z.to_nat ((number_or page 1 - 1) * number_or limit 12)) all))
          (Z.of_nat (length all))
          (ceil_div (Z.of_nat (length all)) (number_or limit 12))
          (number_or page 1) |}, s).
Proof.
  unfold found. intros Hall Hl Ho. unfold serve.
  cbn [listProducts attempt rescue].
  rewrite run_proc_call. cbn [exec_stmt].
  assert ((number_or limit 12 <? 0) = false) as -> by (apply Z.ltb_ge; exact Hl).
  assert (((number_or page 1 - 1) * number_or limit 12 <? 0) = false) as ->
    by (apply Z.ltb_ge; exact Ho).
  cbn [orb]. rewrite Hall.
  rewrite run_proc_call. cbn [exec_stmt]. rewrite Hall.
  reflexivity.
Qed.

(** X17: a page of [GET /products].  With a positive limit and a page
    number of at least 1 (after the defaults 12 and 1 replaced what was
    absent or 0), the answer carries at most [limit] products, the number
    of all matching products, and a page count that is the least number of
    pages of that size holding them all; a page beyond the last one is
    empty. *)
Theorem listProducts_page_bounds ilike page limit search priceFilter s all :
  found ilike search priceFilter s = Some all ->
  0 < number_or limit 12 ->
  1 <= number_or page 1 ->
  exists rows totalPages,
    serve (listProducts ilike page limit search priceFilter) no_faults s =
    ({| code := 200;
        payload_of := Page rows (Z.of_nat (length all)) totalPages
                        (number_or page 1) |}, s)
    /\ Z.of_nat (length rows) <= number_or limit 12
    /\ number_or limit 12 * (totalPages - 1) < Z.of_nat (length all)
       <= number_or limit 12 * totalPages
    /\ (totalPages < number_or page 1 -> rows = []).
Proof.
  intros Hall Hl Hp.
  eexists. eexists. split.
  - apply serve_listProducts; [exact Hall | lia | nia].
  - pose proof (ceil_div_bounds (Z.of_nat (length all)) _ Hl) as Hc.
    split; [|split].
    + rewrite length_take. lia.
    + exact Hc.
    + intros Hbeyond. rewrite drop_ge; [apply take_nil|]. nia.
Qed.

Lemma listProducts_page_bounds_witness :
  found Sample.ilike None None (Sample.site_of (Shop.shop 1000 5))
    = Some [Shop.productA 1000 5]
  /\ 0 < number_or None 12
  /\ 1 <= number_or (Some 2) 1
  /\ exists rows totalPages,
       serve (listProducts Sample.ilike (Some 2) None None None) no_faults
         (Sample.site_of (Shop.shop 1000 5)) =
       ({| code := 200;
           payload_of :=
             Page rows (Z.of_nat (length [Shop.productA 1000 5])) totalPages
               (number_or (Some 2) 1) |}, Sample.site_of (Shop.shop 1000 5))
       /\ Z.of_nat (length rows) <= number_or None 12
       /\ number_or None 12 * (totalPages - 1)
          < Z.of_nat (length [Shop.productA 1000 5])
          <= number_or None 12 * totalPages
       /\ (totalPages < number_or (Some 2) 1 -> rows = []).
Proof.
  assert (H1 : found Sample.ilike None None (Sample.site_of (Shop.shop 1000 5))
               = Some [Shop.productA 1000 5]) by (vm_compute; reflexivity).
  assert (H2 : 0 < number_or None 12) by reflexivity.
  assert (H3 : 1 <= number_or (Some 2) 1) by discriminate.
  refine (conj H1 (conj H2 (conj H3 _))).
  exact (listProducts_page_bounds Sample.ilike (Some 2) None None None
           (Sample.site_of (Shop.shop 1000 5)) _ H1 H2 H3).
Defined.

Lemma chunks_cover {A} (l : list A) (size : nat) :
  forall n,
    flat_map (fun i => take size (drop (i * size) l)) (seq 0 n) =
    take (n * size) l.
Proof.
  induction n as [|n IH]; [reflexivity|].
  rewrite seq_S, flat_map_app, IH. cbn [flat_map plus]. rewrite app_nil_r.
  rewrite take_take_drop. f_equal. lia.
Qed.

(** X18: the pages of [GET /products] cover the product list.  For a
    positive limit, the products of pages 1 to [totalPages], one after the
    other, are all the matching products, each once (the database scanning
    the table in the same order for every request). *)
Theorem listProducts_pages_cover ilike limit search priceFilter s all :
  found ilike search priceFilter s = Some all ->
  0 < number_or limit 12 ->
  flat_map
    (fun i =>
       listed (fst (serve (listProducts ilike (Some (Z.of_nat i + 1)) limit
                             search priceFilter) no_faults s)))
    (seq 0 (Z.to_nat (ceil_div (Z.of_nat (length all)) (number_or limit 12))))
  = all.
Proof.
  intros Hall Hl.
  pose proof (ceil_div_bounds (Z.of_nat (length all)) _ Hl) as Hc.
  rewrite (flat_map_ext _
             (fun i => take (Z.to_nat (number_or limit 12))
                         (drop (i * Z.to_nat (number_or limit 12)) all))).
  - rewrite chunks_cover. apply take_ge. nia.
  - intros i.
    assert (Hpage : number_or (Some (Z.of_nat i + 1)) 1 = Z.of_nat i + 1).
    { cbn [number_or].
      assert ((Z.of_nat i + 1 =? 0) = false) as -> by (apply Z.eqb_neq; lia).
      reflexivity. }
    rewrite (serve_listProducts _ _ _ _ _ _ all Hall) by (rewrite ?Hpage; nia).
    cbn [fst listed payload_of]. rewrite Hpage. do 2 f_equal. nia.
Qed.

Lemma listProducts_pages_cover_witness :
  found Sample.ilike None None (Sample.site_of (Shop.shop 1000 5))
    = Some [Shop.productA 1000 5]
  /\ 0 < number_or (Some 1) 12
  /\ flat_map
       (fun i =>
          listed (fst (serve (listProducts Sample.ilike (Some (Z.of_nat i + 1))
                                (Some 1) None None) no_faults
                         (Sample.site_of (Shop.shop 1000 5)))))
       (seq 0 (Z.to_nat (ceil_div (Z.of_nat (length [Shop.productA 1000 5]))
                           (number_or (Some 1) 12))))
     = [Shop.productA 1000 5].
Proof.
  assert (H1 : found Sample.ilike None None (Sample.site_of (Shop.shop 1000 5))
               = Some [Shop.productA 1000 5]) by (vm_compute; reflexivity).
  assert (H2 : 0 < number_or (Some 1) 12) by reflexivity.
  refine (conj H1 (conj H2 _)).
  exact (listProducts_pages_cover Sample.ilike (Some 1) None None
           (Sample.site_of (Shop.shop 1000 5)) _ H1 H2).
Defined.

(** X19: what [GET /products] answers with a 500.  A negative limit, a
    negative page number with a positive limit, and a [priceFilter] that is
    none of [all], [low], [medium], [high] each make the first query fail,
    and the answer is a 500 with nothing changed. *)
Theorem listProducts_refused ilike page limit search priceFilter s faults :
  number_or limit 12 < 0
  \/ (0 < number_or limit 12 /\ number_or page 1 < 0)
  \/ (string_or priceFilter "all" <> "all"
      /\ priceCondition (string_or priceFilter "all") = None) ->
  serve (listProducts ilike page limit search priceFilter) faults s =
  (refuse 500 ListProductsFailed, s).
Proof.
  intros Hbad. unfold serve. cbn [listProducts attempt rescue run_proc exec_stmt].
  destruct (faults 0%nat); [reflexivity|].
  destruct Hbad as [Hl | [[Hl Hp] | [Hf Hc]]].
  - assert ((number_or limit 12 <? 0) = true) as -> by (apply Z.ltb_lt; exact Hl).
    reflexivity.
  - assert (((number_or page 1 - 1) * number_or limit 12 <? 0) = true) as ->
      by (apply Z.ltb_lt; nia).
    rewrite orb_true_r. reflexivity.
  - destruct (_ || _); [reflexivity|].
    unfold matching, priceClause.
    rewrite bool_decide_eq_false_2 by exact Hf. rewrite Hc.
    reflexivity.
Qed.

Lemma listProducts_refused_witness :
  (number_or None 12 < 0
   \/ (0 < number_or None 12 /\ number_or None 1 < 0)
   \/ (string_or (Some "cheap") "all" <> "all"
       /\ priceCondition (string_or (Some "cheap") "all") = None))
  /\ serve (listProducts Sample.ilike None None None (Some "cheap")) no_faults
       (Sample.site_of (Shop.shop 1000 5)) =
     (refuse 500 ListProductsFailed, Sample.site_of (Shop.shop 1000 5)).
Proof.
  assert (H1 : number_or None 12 < 0
   \/ (0 < number_or None 12 /\ number_or None 1 < 0)
   \/ (string_or (Some "cheap") "all" <> "all"
       /\ priceCondition (string_or (Some "cheap") "all") = None)).
  { right. right. split; [discriminate | reflexivity]. }
  refine (conj H1 _).
  exact (listProducts_refused Sample.ilike None None None (Some "cheap")
           (Sample.site_of (Shop.shop 1000 5)) no_faults H1).
Defined.

Lemma bands_partition (l : list product) :
  (length (List.filter (in_band Low) l)
   + length (List.filter (in_band Medium) l)
   + length (List.filter (in_band High) l))%nat = length l.
Proof.
  induction l as [|p l IH]; [reflexivity|].
  cbn [List.filter in_band].
  destruct (p_price p <=? 10000) eqn:E1;
    destruct (10000 <? p_price p) eqn:E2;
    destruct (p_price p <=? 20000) eqn:E3;
    destruct (20000 <? p_price p) eqn:E4;
    cbn [andb length]; try lia.
  all: exfalso; repeat match goal with
    | H : (_ <=? _) = true |- _ => apply Z.leb_le in H
    | H : (_ <=? _) = false |- _ => apply Z.leb_gt in H
    | H : (_ <? _) = true |- _ => apply Z.ltb_lt in H
    | H : (_ <? _) = false |- _ => apply Z.ltb_ge in H
    end; lia.
Qed.

(** X20: the three price filters split the product list.  For the same
    search, page and limit, the counts [GET /products] reports under [low],
    [medium] and [high] add up to the count it reports under [all]: every
    product falls under exactly one of the three filters. *)
Theorem listProducts_price_filters_partition ilike page limit search s all :
  found ilike search None s = Some all ->
  0 <= number_or limit 12 ->
  0 <= (number_or page 1 - 1) * number_or limit 12 ->
  total_of (fst (serve (listProducts ilike page limit search (Some "low"))
                   no_faults s))
  + total_of (fst (serve (listProducts ilike page limit search (Some "medium"))
                     no_faults s))
  + total_of (fst (serve (listProducts ilike page limit search (Some "high"))
                     no_faults s))
  = total_of (fst (serve (listProducts ilike page limit search (Some "all"))
                     no_faults s))
  /\ total_of (fst (serve (listProducts ilike page limit search (Some "all"))
                      no_faults s))
     = Z.of_nat (length all).
Proof.
  intros Hall Hl Ho. unfold found in Hall.
  cbn [string_or priceClause bool_decide decide_rel] in Hall.
  change (priceClause "all") with (@None (option band)) in Hall.
  cbn [matching] in Hall.
  assert (Hb : forall b name,
             priceClause name = Some (Some b) ->
             found ilike search (Some name) s = Some (List.filter (in_band b) all)
             -> total_of (fst (serve (listProducts ilike page limit search (Some name))
                                 no_faults s))
                = Z.of_nat (length (List.filter (in_band b) all))).
  { intros b name _ Hf.
    rewrite (serve_listProducts _ _ _ _ _ _ _ Hf Hl Ho). reflexivity. }
  assert (Hfound : forall b name,
             name <> "" ->
             priceClause name = Some (Some b) ->
             found ilike search (Some name) s = Some (List.filter (in_band b) all)).
  { intros b name Hne Hc. unfold found.
    assert (string_or (Some name) "all" = name) as ->
      by (destruct name; [contradiction | reflexivity]).
    rewrite Hc. unfold matching in *.
    destruct (nameClause ilike (string_or search ""));
      injection Hall as <-; reflexivity. }
  rewrite (Hb Low "low" eq_refl (Hfound Low "low" ltac:(discriminate) eq_refl)).
  rewrite (Hb Medium "medium" eq_refl
             (Hfound Medium "medium" ltac:(discriminate) eq_refl)).
  rewrite (Hb High "high" eq_refl (Hfound High "high" ltac:(discriminate) eq_refl)).
  assert (Hfall : found ilike search (Some "all") s = Some all).
  { unfold found. cbn [string_or]. change (priceClause "all") with (@None (option band)).
    cbn [matching]. exact Hall. }
  rewrite (serve_listProducts _ _ _ _ _ _ _ Hfall Hl Ho).
  cbn [fst total_of payload_of]. split; [|reflexivity].
  rewrite <- (bands_partition all). lia.
Qed.

Lemma listProducts_price_filters_partition_witness :
  found Sample.ilike None None (Sample.site_of (Shop.shop 1000 5))
    = Some [Shop.productA 1000 5]
  /\ 0 <= number_or None 12
  /\ 0 <= (number_or None 1 - 1) * number_or None 12
  /\ total_of (fst (serve (listProducts Sample.ilike None None None (Some "low"))
                      no_faults (Sample.site_of (Shop.shop 1000 5))))
     + total_of (fst (serve (listProducts Sample.ilike None None None
                               (Some "medium"))
                        no_faults (Sample.site_of (Shop.shop 1000 5))))
     + total_of (fst (serve (listProducts Sample.ilike None None None (Some "high"))
                        no_faults (Sample.site_of (Shop.shop 1000 5))))
     = total_of (fst (serve (listProducts Sample.ilike None None None (Some "all"))
                        no_faults (Sample.site_of (Shop.shop 1000 5)))).
Proof.
  assert (H1 : found Sample.ilike None None (Sample.site_of (Shop.shop 1000 5))
               = Some [Shop.productA 1000 5]) by (vm_compute; reflexivity).
  assert (H2 : 0 <= number_or None 12) by discriminate.
  assert (H3 : 0 <= (number_or None 1 - 1) * number_or None 12) by discriminate.
  refine (conj H1 (conj H2 (conj H3 _))).
  exact (proj1 (listProducts_price_filters_partition Sample.ilike None None None
                  (Sample.site_of (Shop.shop 1000 5)) _ H1 H2 H3)).
Defined.

(** ** The route table *)

Ltac string_cases :=
  repeat (match goal with
          | |- context [String.eqb ?x ?y] => destruct (String.eqb x y) eqn:?
          end; cbn [andb negb]);
  repeat match goal with
         | H : String.eqb _ _ = true |- _ => apply String.eqb_eq in H
         end;
  subst; try discriminate.

Ltac reach m p := exists m, p; reflexivity.

(** X21: two handlers are never reached.  [GET /products/:id] is
    registered before [GET /products/all] and [GET /products/admin] and
    answers every path of two segments under [/products], so no request is
    dispatched to the handlers of those two routes; every other handler has
    a request that reaches it. *)
Theorem dispatch_never_reaches_products_all_and_admin :
  (forall m path,
      dispatch m path <> Some ProductsAll
      /\ dispatch m path <> Some ProductsAdmin)
  /\ dispatch GET ["products"; "all"] = Some ProductGet
  /\ dispatch GET ["products"; "admin"] = Some ProductGet
  /\ (forall e, e <> ProductsAll -> e <> ProductsAdmin ->
                exists m path, dispatch m path = Some e).
Proof.
  assert (H : forall m path e, dispatch m path = Some e ->
                               e <> ProductsAll /\ e <> ProductsAdmin).
  { intros m path e. unfold dispatch, routes.
    destruct m; cbn [first_match method_eqb andb];
      destruct path as [|a [|b [|c [|d path]]]]; cbn [matches andb];
      string_cases; intros [= <-]; split; discriminate. }
  split; [|split; [|split]]; try reflexivity.
  - intros m path. split.
    + intros He. apply H in He as [He _]. apply He. reflexivity.
    + intros He. apply H in He as [_ He]. apply He. reflexivity.
  - intros e H1 H2. destruct e; try contradiction;
      first [ reach POST ["register"] | reach POST ["login"]
            | reach GET ["protected"] | reach POST ["products"; "upload"]
            | reach GET ["products"; "1"] | reach PUT ["products"; "1"]
            | reach DELETE ["products"; "1"] | reach GET ["products"]
            | reach GET ["seller"; "products"]
            | reach GET ["products"; "1"; "reviews"]
            | reach POST ["products"; "1"; "reviews"]
            | reach GET ["wishlist"] | reach POST ["wishlist"]
            | reach DELETE ["wishlist"; "1"] | reach POST ["orders"]
            | reach GET ["orders"] | reach GET ["users"]
            | reach DELETE ["users"; "1"]
            | reach DELETE ["products"; "admin"; "1"]
            | reach GET (@nil string) ].
Qed.

(** ** An order seen from the seller's side *)

Lemma set_stock_same p : set_stock p (p_stock p - 0) = p.
Proof. destruct p. unfold set_stock. cbn. f_equal. lia. Qed.

Lemma decrement_lookup ds :
  forall (ps : gmap Z product) id,
    decrement ds ps !! id =
    (fun p => set_stock p (p_stock p - requested id ds)) <$> ps !! id.
Proof.
  induction ds as [|d ds IH]; intros ps id.
  - cbn [decrement fold_left requested foldr].
    destruct (ps !! id) as [p|]; cbn; [rewrite set_stock_same|]; reflexivity.
  - unfold decrement in *. cbn [fold_left]. rewrite IH. cbn [requested foldr].
    fold (requested id ds).
    destruct (decide (d_product_id d = id)) as [->|Hne].
    + rewrite lookup_alter_eq, Z.eqb_refl.
      destruct (ps !! id) as [p|]; cbn; [|reflexivity].
      unfold set_stock. cbn. do 2 f_equal. lia.
    + rewrite lookup_alter_ne by exact Hne.
      apply Z.eqb_neq in Hne. rewrite Hne.
      destruct (ps !! id) as [p|]; cbn; [|reflexivity].
      do 2 f_equal.
Qed.

Lemma snapshots_requested db items :
  forall ds id,
    snapshots db items = Some ds -> requested id ds = asked id items.
Proof.
  induction items as [|it rest IH]; intros ds id Hs.
  - injection Hs as <-. reflexivity.
  - apply snapshots_cons in Hs as (d & ds' & -> & Hd & Hs).
    apply snapshot_Some in Hd as (p & Hp & Hq & _).
    cbn [requested asked foldr]. rewrite Hp, Hq.
    fold (requested id ds') (asked id rest). rewrite (IH _ _ Hs). reflexivity.
Qed.

(** X22: what the seller sees after an order.  Once an order is
    committed, [GET /products/:id] by the product's seller returns the
    product as it was with its stock lowered by the quantities of all the
    lines of the order that name it, and nothing else changed. *)
Theorem getProduct_shows_stock_after_order
    db user_id items faults o db' s id p :
  run (placeOrder user_id (Some items)) faults db = (Created o, db') ->
  products db !! id = Some p ->
  serve (getProduct (p_seller_id p) id) no_faults (with_core s db') =
  ({| code := 200;
      payload_of := OneProduct (set_stock p (p_stock p - asked id items)) |},
   with_core s db').
Proof.
  intros Hrun Hl.
  apply placeOrder_created in Hrun as (items' & ds & [= <-] & Hs & Ho & ->).
  unfold serve. cbn [getProduct attempt rescue].
  rewrite run_proc_call. cbn [exec_stmt exec core with_core committed products].
  rewrite decrement_lookup, Hl. cbn [fmap option_fmap option_map].
  cbn [set_stock p_seller_id]. rewrite Z.eqb_refl.
  rewrite (snapshots_requested _ _ _ _ Hs). cbn [run_proc].
  destruct s; reflexivity.
Qed.

Lemma getProduct_shows_stock_after_order_witness :
  run (placeOrder 7 (Some [Shop.line 1 3])) no_faults (Shop.shop 1000 5) =
  (Created (Shop.order1 7 30%float),
   {| products := {[ 1 := Shop.productA 1000 2 ]};
      orders := [Shop.order1 7 30%float];
      order_items := [Shop.row 1 1 3 1000] |})
  /\ products (Shop.shop 1000 5) !! 1 = Some (Shop.productA 1000 5)
  /\ serve (getProduct (p_seller_id (Shop.productA 1000 5)) 1) no_faults
       (with_core (Sample.site_of (Shop.shop 1000 5))
          {| products := {[ 1 := Shop.productA 1000 2 ]};
             orders := [Shop.order1 7 30%float];
             order_items := [Shop.row 1 1 3 1000] |}) =
     ({| code := 200;
         payload_of :=
           OneProduct (set_stock (Shop.productA 1000 5)
                         (p_stock (Shop.productA 1000 5)
                          - asked 1 [Shop.line 1 3])) |},
      with_core (Sample.site_of (Shop.shop 1000 5))
        {| products := {[ 1 := Shop.productA 1000 2 ]};
           orders := [Shop.order1 7 30%float];
           order_items := [Shop.row 1 1 3 1000] |}).
Proof.
  assert (H1 : run (placeOrder 7 (Some [Shop.line 1 3])) no_faults (Shop.shop 1000 5) =
               (Created (Shop.order1 7 30%float),
                {| products := {[ 1 := Shop.productA 1000 2 ]};
                   orders := [Shop.order1 7 30%float];
                   order_items := [Shop.row 1 1 3 1000] |}))
    by (vm_compute; reflexivity).
  assert (H2 : products (Shop.shop 1000 5) !! 1 = Some (Shop.productA 1000 5))
    by reflexivity.
  refine (conj H1 (conj H2 _)).
  exact (getProduct_shows_stock_after_order _ _ _ _ _ _
           (Sample.site_of (Shop.shop 1000 5)) 1 _ H1 H2).
Defined.
